(** * tcod.event: translation and dispatch of SDL events

    A shallow embedding of [src/tcod/event.py], the module that turns the
    records of SDL's event queue into Python event objects and routes each
    object to a handler method named after its [type] attribute.

    Python values are modelled as the code has them: an [int] is a [Z], a
    [str] is a [string], an object is its class together with its attribute
    dictionary (a [gmap string Value]), a dict literal with keys taken from
    the C library is a [gmap] built by successive insertion, and the dict
    handed to [_describe_bitmask], whose iteration order is observable, is an
    association list in insertion order. *)

From Stdlib Require Import ZArith QArith Qround String Ascii List DecimalString.
From Stdlib Require Import Floats.
From stdpp Require Import gmap strings list fin_maps.

Local Open Scope Z_scope.
Local Open Scope string_scope.

(** ** Python strings *)

Module PyStr.

(** [str.upper] and [str.lower], letter by letter.  Every string the module
    applies them to (class names and the labels of [__WINDOW_TYPES]) is
    ASCII, where Python's case mapping is the one below; characters outside
    [A-Za-z] are left as they are. *)
Definition upper_ascii (c : ascii) : ascii :=
  let n := nat_of_ascii c in
  if ((97 <=? n) && (n <=? 122))%nat then ascii_of_nat (n - 32) else c.

Definition lower_ascii (c : ascii) : ascii :=
  let n := nat_of_ascii c in
  if ((65 <=? n) && (n <=? 90))%nat then ascii_of_nat (n + 32) else c.

Fixpoint upper (s : string) : string :=
  match s with
  | EmptyString => EmptyString
  | String c s' => String (upper_ascii c) (upper s')
  end.

Fixpoint lower (s : string) : string :=
  match s with
  | EmptyString => EmptyString
  | String c s' => String (lower_ascii c) (lower s')
  end.

(** [str.isascii]: no character beyond code 127.  Statements about strings
    other than the module's own take this as a hypothesis. *)
Definition isascii (s : string) : bool :=
  forallb (fun c => (nat_of_ascii c <? 128)%nat) (list_ascii_of_string s).

(** [sep.join(parts)]. *)
Fixpoint join (sep : string) (parts : list string) : string :=
  match parts with
  | [] => ""
  | [p] => p
  | p :: rest => p ++ sep ++ join sep rest
  end.

(** Truth value of a string: only the empty string is false. *)
Definition truthy (s : string) : bool :=
  match s with EmptyString => false | String _ _ => true end.

End PyStr.

(** ** The C side: SDL's event record and the library namespace *)

(** Address of a cffi allocation. *)
Definition loc := positive.

(** [SDL_Event] is a C union; every view of it is kept as a field of its own,
    so a record of the model fixes what each view reads, whichever views the
    C code filled in.  Integer fields are [Z] without a range: the module
    does no C arithmetic on them. *)
Record SDL_Keysym := { scancode : Z; sym : Z; mod_ : Z }.
Record SDL_KeyboardEvent := { keysym : SDL_Keysym; key_repeat : Z }.
Record SDL_MouseMotionEvent :=
  { motion_x : Z; motion_y : Z; xrel : Z; yrel : Z; motion_state : Z }.
Record SDL_MouseButtonEvent := { button_x : Z; button_y : Z; button_button : Z }.
Record SDL_MouseWheelEvent := { wheel_x : Z; wheel_y : Z; direction : Z }.
Record SDL_TextInputEvent := { text_text : list Byte.byte }.
Record SDL_WindowEvent := { window_event : Z; data1 : Z; data2 : Z }.

Record SDL_Event := {
  sdl_type : Z;
  key : SDL_KeyboardEvent;
  motion : SDL_MouseMotionEvent;
  button : SDL_MouseButtonEvent;
  wheel : SDL_MouseWheelEvent;
  text : SDL_TextInputEvent;
  window : SDL_WindowEvent
}.

(** What [tcod.ffi.new("SDL_Event*")] allocates: a zeroed record. *)
Definition SDL_Event_zero : SDL_Event :=
  {| sdl_type := 0;
     key := {| keysym := {| scancode := 0; sym := 0; mod_ := 0 |}; key_repeat := 0 |};
     motion := {| motion_x := 0; motion_y := 0; xrel := 0; yrel := 0; motion_state := 0 |};
     button := {| button_x := 0; button_y := 0; button_button := 0 |};
     wheel := {| wheel_x := 0; wheel_y := 0; direction := 0 |};
     text := {| text_text := [] |};
     window := {| window_event := 0; data1 := 0; data2 := 0 |} |}.

#[global] Instance SDL_Event_inhabited : Inhabited SDL_Event :=
  populate SDL_Event_zero.

(** A cffi pointer as Python sees it during one call: the address it holds
    and the record found there when its fields are read. *)
Record cdata := { ptr : loc; deref : SDL_Event }.

(** [tcod.lib]: the constants of SDL's headers and the coordinate service of
    libtcod.  Neither is defined by this repository, so the model takes them
    as given.  A C [double] is modelled by the rational it denotes; the
    service is taken to return finite values. *)
Record tcod_lib := {
  SDL_QUIT : Z;
  SDL_KEYDOWN : Z;
  SDL_KEYUP : Z;
  SDL_MOUSEMOTION : Z;
  SDL_MOUSEBUTTONDOWN : Z;
  SDL_MOUSEBUTTONUP : Z;
  SDL_MOUSEWHEEL : Z;
  SDL_TEXTINPUT : Z;
  SDL_WINDOWEVENT : Z;
  SDL_WINDOWEVENT_SHOWN : Z;
  SDL_WINDOWEVENT_HIDDEN : Z;
  SDL_WINDOWEVENT_EXPOSED : Z;
  SDL_WINDOWEVENT_MOVED : Z;
  SDL_WINDOWEVENT_RESIZED : Z;
  SDL_WINDOWEVENT_SIZE_CHANGED : Z;
  SDL_WINDOWEVENT_MINIMIZED : Z;
  SDL_WINDOWEVENT_MAXIMIZED : Z;
  SDL_WINDOWEVENT_RESTORED : Z;
  SDL_WINDOWEVENT_ENTER : Z;
  SDL_WINDOWEVENT_LEAVE : Z;
  SDL_WINDOWEVENT_FOCUS_GAINED : Z;
  SDL_WINDOWEVENT_FOCUS_LOST : Z;
  SDL_WINDOWEVENT_CLOSE : Z;
  SDL_WINDOWEVENT_TAKE_FOCUS : Z;
  SDL_WINDOWEVENT_HIT_TEST : Z;
  TCOD_sys_pixel_to_tile : Q * Q -> Q * Q
}.

(** ** Python values and objects *)

Inductive Value :=
| VNone
| VBool (b : bool)
| VInt (z : Z)
| VStr (s : string)
| VPoint (x y : Z)      (* the named tuple [Point] *)
| VPtr (p : loc).       (* a cffi [SDL_Event*] *)

Inductive Class :=
| Event | Quit | KeyboardEvent | KeyDown | KeyUp
| MouseMotion | MouseButtonEvent | MouseButtonDown | MouseButtonUp
| MouseWheel | TextInput | WindowEvent | Undefined.

#[global] Instance Class_eq_dec : EqDecision Class.
Proof. solve_decision. Defined.

Definition __name__ (cls : Class) : string :=
  match cls with
  | Event => "Event"
  | Quit => "Quit"
  | KeyboardEvent => "KeyboardEvent"
  | KeyDown => "KeyDown"
  | KeyUp => "KeyUp"
  | MouseMotion => "MouseMotion"
  | MouseButtonEvent => "MouseButtonEvent"
  | MouseButtonDown => "MouseButtonDown"
  | MouseButtonUp => "MouseButtonUp"
  | MouseWheel => "MouseWheel"
  | TextInput => "TextInput"
  | WindowEvent => "WindowEvent"
  | Undefined => "Undefined"
  end.

(** An instance: its class and its [__dict__]. *)
Record PyObj := { ob_type : Class; ob_dict : gmap string Value }.

Definition object_new (cls : Class) : PyObj :=
  {| ob_type := cls; ob_dict := ∅ |}.

Definition setattr (self : PyObj) (name : string) (v : Value) : PyObj :=
  {| ob_type := ob_type self; ob_dict := <[name := v]> (ob_dict self) |}.

Inductive exn :=
| AttributeError (name : string)
| NotImplementedError.

(** Outcome of a call: a value, a raised exception, or [Unfinished] when a
    loop of the model used up the bound it was given. *)
Inductive result (A : Type) :=
| Ok (a : A)
| Raise (e : exn)
| Unfinished.
Arguments Ok {A} a.
Arguments Raise {A} e.
Arguments Unfinished {A}.

(** [int(x)] on a float: truncation towards zero. *)
Definition py_int (x : Q) : Z := Z.quot (Qnum x) (Z.pos (Qden x)).

(** [bool(n)] on an int. *)
Definition py_bool (n : Z) : bool := negb (Z.eqb n 0).

(** [a == b] on the values of the model; a [bool] is an [int] (0 or 1) and
    compares as one. *)
Definition py_eq (a b : Value) : bool :=
  match a, b with
  | VNone, VNone => true
  | VBool x, VBool y => Bool.eqb x y
  | VBool x, VInt z | VInt z, VBool x => Z.eqb (Z.b2z x) z
  | VInt x, VInt y => Z.eqb x y
  | VStr s, VStr t => String.eqb s t
  | VPoint x y, VPoint x' y' => Z.eqb x x' && Z.eqb y y'
  | VPtr p, VPtr q => Pos.eqb p q
  | _, _ => false
  end.

(** [tcod.ffi.string(cdata, maxlen)]: the bytes before the first NUL, at most
    [maxlen] of them. *)
Fixpoint ffi_string (cdata : list Byte.byte) (maxlen : nat) : list Byte.byte :=
  match maxlen, cdata with
  | S n, b :: rest =>
      match b with
      | Byte.x00 => []
      | _ => b :: ffi_string rest n
      end
  | _, _ => []
  end.

(** [bytes.decode("utf8")].  A [str] is represented by its UTF-8 encoding, so
    decoding keeps the bytes; the buffer is taken to hold well-formed UTF-8,
    which is what SDL writes there. *)
Definition decode_utf8 (b : list Byte.byte) : string := string_of_list_byte b.

(** ** The bitmask describer *)

(** [_describe_bitmask(bits, table, default)].  [table.items()] is the list
    of pairs in insertion order; [result] starts empty and receives the name
    of every entry whose key has a bit in common with [bits].  [default] may
    be any object and is returned as it is. *)
Definition _describe_bitmask (bits : Z) (table : list (Z * string))
    (default : Value) : Value :=
  let result :=
    fold_left
      (fun (result : list string) '(bit, name) =>
         if Z.eqb (Z.land bit bits) 0 then result else (result ++ [name])%list)
      table [] in
  match result with
  | [] => default
  | _ => VStr (PyStr.join "|" result)
  end.

Definition BUTTON_LEFT : Z := 1.
Definition BUTTON_MIDDLE : Z := 2.
Definition BUTTON_RIGHT : Z := 3.
Definition BUTTON_X1 : Z := 4.
Definition BUTTON_X2 : Z := 5.
Definition BUTTON_LMASK : Z := 0x01.
Definition BUTTON_MMASK : Z := 0x02.
Definition BUTTON_RMASK : Z := 0x04.
Definition BUTTON_X1MASK : Z := 0x08.
Definition BUTTON_X2MASK : Z := 0x10.

Definition _REVERSE_BUTTON_MASK_TABLE : list (Z * string) :=
  [ (BUTTON_LMASK, "tcod.event.BUTTON_LMASK");
    (BUTTON_MMASK, "tcod.event.BUTTON_MMASK");
    (BUTTON_RMASK, "tcod.event.BUTTON_RMASK");
    (BUTTON_X1MASK, "tcod.event.BUTTON_X1MASK");
    (BUTTON_X2MASK, "tcod.event.BUTTON_X2MASK") ].

(** ** The event classes *)

Section Events.

Context (lib : tcod_lib).

(** [_pixel_to_tile(x, y)]: the two ints are stored in a [double[2]], which
    the C service rewrites in place. *)
Definition _pixel_to_tile (x y : Z) : Q * Q :=
  let xy := TCOD_sys_pixel_to_tile lib (inject_Z x, inject_Z y) in
  (fst xy, snd xy).

(** [Event.__init__(self, type=None)]. *)
Definition Event__init__ (self : PyObj) (type : option string) : PyObj :=
  let type :=
    match type with
    | None => PyStr.upper (__name__ (ob_type self))
    | Some t => t
    end in
  let self := setattr self "type" (VStr type) in
  let self := setattr self "sdl_event" VNone in
  self.

(** [Quit.from_sdl_event(cls, sdl_event)]. *)
Definition Quit_from_sdl_event (cls : Class) (sdl_event : cdata) : PyObj :=
  let self := Event__init__ (object_new cls) None in
  let self := setattr self "sdl_event" (VPtr (ptr sdl_event)) in
  self.

Definition KeyboardEvent__init__ (self : PyObj)
    (scancode sym mod_ : Z) (repeat_ : bool) : PyObj :=
  let self := Event__init__ self None in
  let self := setattr self "scancode" (VInt scancode) in
  let self := setattr self "sym" (VInt sym) in
  let self := setattr self "mod" (VInt mod_) in
  let self := setattr self "repeat" (VBool repeat_) in
  self.

Definition KeyboardEvent_from_sdl_event (cls : Class) (sdl_event : cdata)
    : PyObj :=
  let keysym := keysym (key (deref sdl_event)) in
  let self :=
    KeyboardEvent__init__ (object_new cls)
      (scancode keysym) (sym keysym) (mod_ keysym)
      (py_bool (key_repeat (key (deref sdl_event)))) in
  let self := setattr self "sdl_event" (VPtr (ptr sdl_event)) in
  self.

Definition MouseMotion__init__ (self : PyObj)
    (pixel pixel_motion tile tile_motion : Z * Z) (state : Z) : PyObj :=
  let self := Event__init__ self None in
  let self := setattr self "pixel" (VPoint (fst pixel) (snd pixel)) in
  let self :=
    setattr self "pixel_motion" (VPoint (fst pixel_motion) (snd pixel_motion)) in
  let self := setattr self "tile" (VPoint (fst tile) (snd tile)) in
  let self :=
    setattr self "tile_motion" (VPoint (fst tile_motion) (snd tile_motion)) in
  let self := setattr self "state" (VInt state) in
  self.

Definition MouseMotion_from_sdl_event (cls : Class) (sdl_event : cdata)
    : PyObj :=
  let motion := motion (deref sdl_event) in
  let pixel := (motion_x motion, motion_y motion) in
  let pixel_motion := (xrel motion, yrel motion) in
  let subtile := _pixel_to_tile (fst pixel) (snd pixel) in
  let tile := (py_int (fst subtile), py_int (snd subtile)) in
  let prev_pixel :=
    (fst pixel - fst pixel_motion, snd pixel - snd pixel_motion) in
  let prev_subtile := _pixel_to_tile (fst prev_pixel) (snd prev_pixel) in
  let prev_tile := (py_int (fst prev_subtile), py_int (snd prev_subtile)) in
  let tile_motion := (fst tile - fst prev_tile, snd tile - snd prev_tile) in
  let self :=
    MouseMotion__init__ (object_new cls)
      pixel pixel_motion tile tile_motion (motion_state motion) in
  let self := setattr self "sdl_event" (VPtr (ptr sdl_event)) in
  self.

Definition MouseButtonEvent__init__ (self : PyObj)
    (pixel tile : Z * Z) (button : Z) : PyObj :=
  let self := Event__init__ self None in
  let self := setattr self "pixel" (VPoint (fst pixel) (snd pixel)) in
  let self := setattr self "tile" (VPoint (fst tile) (snd tile)) in
  let self := setattr self "button" (VInt button) in
  self.

Definition MouseButtonEvent_from_sdl_event (cls : Class) (sdl_event : cdata)
    : PyObj :=
  let button := button (deref sdl_event) in
  let pixel := (button_x button, button_y button) in
  let subtile := _pixel_to_tile (fst pixel) (snd pixel) in
  let tile := (py_int (fst subtile), py_int (snd subtile)) in
  let self :=
    MouseButtonEvent__init__ (object_new cls) pixel tile (button_button button) in
  let self := setattr self "sdl_event" (VPtr (ptr sdl_event)) in
  self.

Definition MouseWheel__init__ (self : PyObj) (x y : Z) (flipped : bool)
    : PyObj :=
  let self := Event__init__ self None in
  let self := setattr self "x" (VInt x) in
  let self := setattr self "y" (VInt y) in
  let self := setattr self "flipped" (VBool flipped) in
  self.

Definition MouseWheel_from_sdl_event (cls : Class) (sdl_event : cdata)
    : PyObj :=
  let wheel := wheel (deref sdl_event) in
  let self :=
    MouseWheel__init__ (object_new cls)
      (wheel_x wheel) (wheel_y wheel) (py_bool (direction wheel)) in
  let self := setattr self "sdl_event" (VPtr (ptr sdl_event)) in
  self.

Definition TextInput__init__ (self : PyObj) (text : string) : PyObj :=
  let self := Event__init__ self None in
  let self := setattr self "text" (VStr text) in
  self.

Definition TextInput_from_sdl_event (cls : Class) (sdl_event : cdata)
    : PyObj :=
  let self :=
    TextInput__init__ (object_new cls)
      (decode_utf8 (ffi_string (text_text (text (deref sdl_event))) 32)) in
  let self := setattr self "sdl_event" (VPtr (ptr sdl_event)) in
  self.

(** [Undefined.__init__(self)] and [Undefined.from_sdl_event]. *)
Definition Undefined__init__ (self : PyObj) : PyObj :=
  Event__init__ self (Some "").

Definition Undefined_from_sdl_event (cls : Class) (sdl_event : cdata)
    : PyObj :=
  let self := Undefined__init__ (object_new cls) in
  let self := setattr self "sdl_event" (VPtr (ptr sdl_event)) in
  self.

(** A dict literal: the entries are stored from left to right, a later
    entry replacing an earlier one with an equal key. *)
Definition dict_literal {V : Type} (entries : list (Z * V)) : gmap Z V :=
  fold_left (fun d kv => <[fst kv := snd kv]> d) entries ∅.

Definition WINDOW_TYPES_items : list (Z * string) :=
  [ (SDL_WINDOWEVENT_SHOWN lib, "WindowShown");
    (SDL_WINDOWEVENT_HIDDEN lib, "WindowHidden");
    (SDL_WINDOWEVENT_EXPOSED lib, "WindowExposed");
    (SDL_WINDOWEVENT_MOVED lib, "WindowMoved");
    (SDL_WINDOWEVENT_RESIZED lib, "WindowResized");
    (SDL_WINDOWEVENT_SIZE_CHANGED lib, "WindowSizeChanged");
    (SDL_WINDOWEVENT_MINIMIZED lib, "WindowMinimized");
    (SDL_WINDOWEVENT_MAXIMIZED lib, "WindowMaximized");
    (SDL_WINDOWEVENT_RESTORED lib, "WindowRestored");
    (SDL_WINDOWEVENT_ENTER lib, "WindowEnter");
    (SDL_WINDOWEVENT_LEAVE lib, "WindowLeave");
    (SDL_WINDOWEVENT_FOCUS_GAINED lib, "WindowFocusGained");
    (SDL_WINDOWEVENT_FOCUS_LOST lib, "WindowFocusLost");
    (SDL_WINDOWEVENT_CLOSE lib, "WindowClose");
    (SDL_WINDOWEVENT_TAKE_FOCUS lib, "WindowTakeFocus");
    (SDL_WINDOWEVENT_HIT_TEST lib, "WindowHitTest") ].

Definition __WINDOW_TYPES : gmap Z string := dict_literal WINDOW_TYPES_items.

Definition WindowEvent__init__ (self : PyObj) (type : string) (x y : Z)
    : PyObj :=
  let self := Event__init__ self (Some type) in
  let self := setattr self "x" (VInt x) in
  let self := setattr self "y" (VInt y) in
  self.

Definition WindowEvent_from_sdl_event (cls : Class) (sdl_event : cdata)
    : PyObj :=
  let window := window (deref sdl_event) in
  match __WINDOW_TYPES !! window_event window with
  | None => Undefined_from_sdl_event Undefined sdl_event
  | Some type =>
      let self :=
        WindowEvent__init__ (object_new cls) type (data1 window) (data2 window) in
      let self := setattr self "sdl_event" (VPtr (ptr sdl_event)) in
      self
  end.

(** [cls.from_sdl_event(sdl_event)], resolved along the class hierarchy.
    [Event] itself raises; [KeyboardEvent] and [MouseButtonEvent] hand their
    method down to the two subclasses each has. *)
Definition from_sdl_event (cls : Class) (sdl_event : cdata) : result PyObj :=
  match cls with
  | Event => Raise NotImplementedError
  | Quit => Ok (Quit_from_sdl_event cls sdl_event)
  | KeyboardEvent | KeyDown | KeyUp =>
      Ok (KeyboardEvent_from_sdl_event cls sdl_event)
  | MouseMotion => Ok (MouseMotion_from_sdl_event cls sdl_event)
  | MouseButtonEvent | MouseButtonDown | MouseButtonUp =>
      Ok (MouseButtonEvent_from_sdl_event cls sdl_event)
  | MouseWheel => Ok (MouseWheel_from_sdl_event cls sdl_event)
  | TextInput => Ok (TextInput_from_sdl_event cls sdl_event)
  | WindowEvent => Ok (WindowEvent_from_sdl_event cls sdl_event)
  | Undefined => Ok (Undefined_from_sdl_event cls sdl_event)
  end.

Definition SDL_TO_CLASS_TABLE_items : list (Z * Class) :=
  [ (SDL_QUIT lib, Quit);
    (SDL_KEYDOWN lib, KeyDown);
    (SDL_KEYUP lib, KeyUp);
    (SDL_MOUSEMOTION lib, MouseMotion);
    (SDL_MOUSEBUTTONDOWN lib, MouseButtonDown);
    (SDL_MOUSEBUTTONUP lib, MouseButtonUp);
    (SDL_MOUSEWHEEL lib, MouseWheel);
    (SDL_TEXTINPUT lib, TextInput);
    (SDL_WINDOWEVENT lib, WindowEvent) ].

Definition _SDL_TO_CLASS_TABLE : gmap Z Class :=
  dict_literal SDL_TO_CLASS_TABLE_items.

(** The body of the loop of [get]: the object yielded for the record the
    buffer [sdl_event] now holds. *)
Definition translate (sdl_event : cdata) : result PyObj :=
  match _SDL_TO_CLASS_TABLE !! sdl_type (deref sdl_event) with
  | Some cls => from_sdl_event cls sdl_event
  | None => from_sdl_event Undefined sdl_event
  end.

End Events.

(** The constants as SDL 2's headers define them ([SDL_events.h],
    [SDL_video.h]), with a coordinate service for a console of 8-pixel tiles
    placed at the window's origin. *)
Definition SDL2_8px : tcod_lib :=
  {| SDL_QUIT := 0x100;
     SDL_KEYDOWN := 0x300;
     SDL_KEYUP := 0x301;
     SDL_MOUSEMOTION := 0x400;
     SDL_MOUSEBUTTONDOWN := 0x401;
     SDL_MOUSEBUTTONUP := 0x402;
     SDL_MOUSEWHEEL := 0x403;
     SDL_TEXTINPUT := 0x303;
     SDL_WINDOWEVENT := 0x200;
     SDL_WINDOWEVENT_SHOWN := 1;
     SDL_WINDOWEVENT_HIDDEN := 2;
     SDL_WINDOWEVENT_EXPOSED := 3;
     SDL_WINDOWEVENT_MOVED := 4;
     SDL_WINDOWEVENT_RESIZED := 5;
     SDL_WINDOWEVENT_SIZE_CHANGED := 6;
     SDL_WINDOWEVENT_MINIMIZED := 7;
     SDL_WINDOWEVENT_MAXIMIZED := 8;
     SDL_WINDOWEVENT_RESTORED := 9;
     SDL_WINDOWEVENT_ENTER := 10;
     SDL_WINDOWEVENT_LEAVE := 11;
     SDL_WINDOWEVENT_FOCUS_GAINED := 12;
     SDL_WINDOWEVENT_FOCUS_LOST := 13;
     SDL_WINDOWEVENT_CLOSE := 14;
     SDL_WINDOWEVENT_TAKE_FOCUS := 15;
     SDL_WINDOWEVENT_HIT_TEST := 16;
     TCOD_sys_pixel_to_tile := fun xy => (fst xy / 8, snd xy / 8)%Q |}.

(** ** The backend state and the call monad *)

(** What a call can read and change: SDL's queue (oldest record first), the
    cffi allocations, and the methods of the dispatcher entered so far, each
    with the event it received. *)
Record World := {
  sdl_queue : list SDL_Event;
  heap : gmap loc SDL_Event;
  calls : list (string * PyObj)
}.

Definition M (A : Type) : Type := World -> result A * World.

#[global] Instance M_ret : MRet M := fun A a w => (Ok a, w).

#[global] Instance M_bind : MBind M := fun A B f m w =>
  match m w with
  | (Ok a, w') => f a w'
  | (Raise e, w') => (Raise e, w')
  | (Unfinished, w') => (Unfinished, w')
  end.

Definition raise {A : Type} (e : exn) : M A := fun w => (Raise e, w).

Definition lift {A : Type} (r : result A) : M A := fun w => (r, w).

(** [tcod.ffi.new("SDL_Event*")]: a fresh, zeroed record. *)
Definition ffi_new_SDL_Event : M loc := fun w =>
  let p := fresh (dom (heap w)) in
  (Ok p, {| sdl_queue := sdl_queue w;
            heap := <[p := SDL_Event_zero]> (heap w);
            calls := calls w |}).

(** Reading the fields of the record a pointer refers to. *)
Definition ffi_read (p : loc) : M cdata := fun w =>
  (Ok {| ptr := p; deref := heap w !!! p |}, w).

(** Modelled from the spec: [SDL_PollEvent], the backend's poll-one-event
    call (non-blocking, returns whether an event was available and populates
    a record).  The oldest queued record, if any, is removed from the queue
    and copied to the caller's buffer. *)
Definition SDL_PollEvent (event : loc) : M Z := fun w =>
  match sdl_queue w with
  | [] => (Ok 0, w)
  | ev :: rest =>
      (Ok 1, {| sdl_queue := rest;
                heap := <[event := ev]> (heap w);
                calls := calls w |})
  end.

(** A method of the dispatcher being entered with its argument. *)
Definition enter (name : string) (event : PyObj) : M unit := fun w =>
  (Ok tt, {| sdl_queue := sdl_queue w;
             heap := heap w;
             calls := calls w ++ [(name, event)] |}).

(** ** The event source *)

(** The generator [get()] between two resumptions: not yet started, suspended
    at its [yield] with the buffer it allocated, or finished. *)
Inductive get_frame :=
| GetCreated
| GetSuspended (sdl_event : loc)
| GetFinished.

Section Source.

Context (lib : tcod_lib).

(** One turn of [while tcod.lib.SDL_PollEvent(sdl_event): yield ...]. *)
Definition get_resume (sdl_event : loc) : M (option PyObj * get_frame) :=
  polled ← SDL_PollEvent sdl_event;
  if Z.eqb polled 0 then mret (None, GetFinished)
  else
    record ← ffi_read sdl_event;
    event ← lift (translate lib record);
    mret (Some event, GetSuspended sdl_event).

(** [next(g)] on the generator; [None] stands for [StopIteration]. *)
Definition get_next (g : get_frame) : M (option PyObj * get_frame) :=
  match g with
  | GetCreated => sdl_event ← ffi_new_SDL_Event; get_resume sdl_event
  | GetSuspended sdl_event => get_resume sdl_event
  | GetFinished => mret (None, GetFinished)
  end.

(** [get()]: calling a generator function runs none of its body. *)
Definition get : M get_frame := mret GetCreated.

(** [for event in g: body(event)], with at most [bound] resumptions. *)
Fixpoint for_in (bound : nat) (g : get_frame) (body : PyObj -> M unit)
    : M unit :=
  match bound with
  | O => fun w => (Unfinished, w)
  | S bound' =>
      step ← get_next g;
      match fst step with
      | None => mret tt
      | Some event => body event ;; for_in bound' (snd step) body
      end
  end.

(** [list(g)], with at most [bound] resumptions. *)
Fixpoint list_of (bound : nat) (g : get_frame) : M (list PyObj) :=
  match bound with
  | O => fun w => (Unfinished, w)
  | S bound' =>
      step ← get_next g;
      match fst step with
      | None => mret []
      | Some event => rest ← list_of bound' (snd step); mret (event :: rest)
      end
  end.

End Source.

(** ** The dispatcher *)

(** The methods [class EventDispatch] defines. *)
Definition EventDispatch_methods : list string :=
  [ "dispatch"; "event_get"; "event_wait";
    "ev_quit"; "ev_keydown"; "ev_keyup"; "ev_mousemotion";
    "ev_mousebuttondown"; "ev_mousebuttonup"; "ev_mousewheel"; "ev_textinput";
    "ev_windowshown"; "ev_windowhidden"; "ev_windowexposed"; "ev_windowmoved";
    "ev_windowresized"; "ev_windowsizechanged"; "ev_windowminimized";
    "ev_windowmaximized"; "ev_windowrestored"; "ev_windowenter";
    "ev_windowleave"; "ev_windowfocusgained"; "ev_windowfocuslost";
    "ev_windowclose"; "ev_windowtakefocus"; "ev_windowhittest" ].

(** An instance of [EventDispatch] or of a subclass: the methods above, which
    a subclass may override, and whatever methods the subclass adds.  The
    handlers of [EventDispatch] are all [pass] and what an override does is
    up to the subclass; the model records that the handler was entered and
    returns. *)
Record Dispatcher := { added_methods : list string }.

Definition EventDispatch : Dispatcher := {| added_methods := [] |}.

Definition hasattr (self : Dispatcher) (name : string) : bool :=
  bool_decide (name ∈ EventDispatch_methods)
  || bool_decide (name ∈ added_methods self).

(** [getattr(self, name)] for a method name. *)
Definition getattr_method (self : Dispatcher) (name : string)
    : M (PyObj -> M unit) :=
  if hasattr self name then mret (enter name)
  else raise (AttributeError name).

(** [event.name]. *)
Definition getattr (event : PyObj) (name : string) : M Value :=
  match ob_dict event !! name with
  | Some v => mret v
  | None => raise (AttributeError name)
  end.

(** Truth value of an object in an [if]. *)
Definition truthy (v : Value) : bool :=
  match v with
  | VNone => false
  | VBool b => b
  | VInt z => negb (Z.eqb z 0)
  | VStr s => PyStr.truthy s
  | VPoint _ _ => true
  | VPtr _ => true
  end.

(** [v.lower()]: only a [str] has the method. *)
Definition str_lower (v : Value) : M string :=
  match v with
  | VStr s => mret (PyStr.lower s)
  | _ => raise (AttributeError "lower")
  end.

(** [EventDispatch.dispatch(self, event)]. *)
Definition dispatch (self : Dispatcher) (event : PyObj) : M unit :=
  type ← getattr event "type";
  if truthy type then
    lowered ← str_lower type;
    handler ← getattr_method self ("ev_" ++ lowered);
    handler event
  else mret tt.

Section Cycle.

Context (lib : tcod_lib).

(** [EventDispatch.event_get(self)]; each [self.dispatch(event)] is
    recorded as a call of its own before the body of [dispatch] runs. *)
Definition event_get (bound : nat) (self : Dispatcher) : M unit :=
  g ← get;
  for_in lib bound g
    (fun event => enter "dispatch" event ;; dispatch self event).

End Cycle.

(** ** Printing events *)

Definition _REVERSE_BUTTON_TABLE : gmap Z string :=
  dict_literal
    [ (BUTTON_LEFT, "tcod.event.BUTTON_LEFT");
      (BUTTON_MIDDLE, "tcod.event.BUTTON_MIDDLE");
      (BUTTON_RIGHT, "tcod.event.BUTTON_RIGHT");
      (BUTTON_X1, "tcod.event.BUTTON_X1");
      (BUTTON_X2, "tcod.event.BUTTON_X2") ].

Inductive print_exn :=
| KeyError (key : Z)
| MissingAttribute (name : string)
| TypeError.

(** What a [__repr__] or [__str__] comes to: the text, an exception, or
    [Unmodelled] where the value to print is one whose [repr] the model does
    not describe. *)
Inductive printed :=
| Text (s : string)
| Raises (e : print_exn)
| Unmodelled.

(** An int in decimal, as [%i], [%r] and [%s] print it. *)
Definition decimal (z : Z) : string := NilZero.string_of_int (Z.to_int z).

(** A string of printable ASCII characters other than the quote and the
    backslash: [repr] puts such a string between two quotes. *)
Definition plain_ascii (c : ascii) : bool :=
  let n := nat_of_ascii c in
  ((32 <=? n) && (n <=? 126) && negb (n =? 39) && negb (n =? 92))%nat.

Fixpoint plain (s : string) : bool :=
  match s with
  | EmptyString => true
  | String c s' => plain_ascii c && plain s'
  end.

(** [repr(v)] where the model describes it. *)
Definition py_repr (v : Value) : option string :=
  match v with
  | VNone => Some "None"
  | VBool true => Some "True"
  | VBool false => Some "False"
  | VInt z => Some (decimal z)
  | VStr s => if plain s then Some ("'" ++ s ++ "'") else None
  | VPoint x y => Some ("Point(x=" ++ decimal x ++ ", y=" ++ decimal y ++ ")")
  | VPtr _ => None
  end.

(** [self.name] inside a [__repr__], continued by [k]. *)
Definition with_attr (self : PyObj) (name : string) (k : Value -> printed)
    : printed :=
  match ob_dict self !! name with
  | Some v => k v
  | None => Raises (MissingAttribute name)
  end.

(** The conversion [%r]. *)
Definition with_repr (v : Value) (k : string -> printed) : printed :=
  match py_repr v with
  | Some s => k s
  | None => Unmodelled
  end.

(** The conversion [%i]: a number is required. *)
Definition with_int (v : Value) (k : string -> printed) : printed :=
  match v with
  | VInt z => k (decimal z)
  | VBool b => k (decimal (Z.b2z b))
  | VPtr _ => Unmodelled
  | _ => Raises TypeError
  end.

(** [Quit.__repr__]. *)
Definition Quit__repr__ (self : PyObj) : printed :=
  Text ("tcod.event." ++ __name__ (ob_type self) ++ "()").

(** A value used as a key of a dict of ints. *)
Definition as_int_key (v : Value) : option Z :=
  match v with
  | VInt z => Some z
  | VBool b => Some (Z.b2z b)
  | _ => None
  end.

(** [MouseButtonEvent.__repr__]: the tuple of arguments is built first, and
    with it the look-up of the button's name. *)
Definition MouseButtonEvent__repr__ (self : PyObj) : printed :=
  with_attr self "pixel" (fun pixel =>
  with_attr self "tile" (fun tile =>
  with_attr self "button" (fun button =>
  match as_int_key button with
  | None => Unmodelled
  | Some b =>
      match _REVERSE_BUTTON_TABLE !! b with
      | None => Raises (KeyError b)
      | Some button_name =>
          with_repr pixel (fun pixel =>
          with_repr tile (fun tile =>
          Text ("tcod.event." ++ __name__ (ob_type self)
                ++ "(pixel=" ++ pixel ++ ", tile=" ++ tile
                ++ ", button=" ++ button_name ++ ")")))
      end
  end))).

(** [MouseWheel.__repr__]. *)
Definition MouseWheel__repr__ (self : PyObj) : printed :=
  with_attr self "x" (fun x =>
  with_attr self "y" (fun y =>
  with_attr self "flipped" (fun flipped =>
  with_int x (fun x =>
  with_int y (fun y =>
  Text ("tcod.event." ++ __name__ (ob_type self)
        ++ "(x=" ++ x ++ ", y=" ++ y
        ++ (if truthy flipped then ", flipped=True" else "") ++ ")")))))).

(** [MouseMotion.__repr__]; the state must be an int for [bit & bits]. *)
Definition MouseMotion__repr__ (self : PyObj) : printed :=
  with_attr self "pixel" (fun pixel =>
  with_attr self "pixel_motion" (fun pixel_motion =>
  with_attr self "tile" (fun tile =>
  with_attr self "tile_motion" (fun tile_motion =>
  with_attr self "state" (fun state =>
  match as_int_key state with
  | None => Raises TypeError
  | Some bits =>
      match _describe_bitmask bits _REVERSE_BUTTON_MASK_TABLE (VStr "0") with
      | VStr state =>
          with_repr pixel (fun pixel =>
          with_repr pixel_motion (fun pixel_motion =>
          with_repr tile (fun tile =>
          with_repr tile_motion (fun tile_motion =>
          Text ("tcod.event." ++ __name__ (ob_type self)
                ++ "(pixel=" ++ pixel ++ ", pixel_motion=" ++ pixel_motion
                ++ ", tile=" ++ tile ++ ", tile_motion=" ++ tile_motion
                ++ ", state=" ++ state ++ ")")))))
      | _ => Unmodelled
      end
  end))))).

(** [WindowEvent.__repr__]. *)
Definition WindowEvent__repr__ (self : PyObj) : printed :=
  with_attr self "x" (fun x =>
  let continue_ (params : string) : printed :=
    with_attr self "type" (fun type =>
    with_repr type (fun type =>
    Text ("tcod.event." ++ __name__ (ob_type self)
          ++ "(type=" ++ type ++ params ++ ")"))) in
  let with_params : printed :=
    with_attr self "x" (fun x =>
    with_attr self "y" (fun y =>
    with_repr x (fun x =>
    with_repr y (fun y =>
    continue_ (", x=" ++ x ++ ", y=" ++ y))))) in
  if truthy x then with_params
  else with_attr self "y" (fun y =>
       if truthy y then with_params else continue_ "")).

(** [Undefined.__str__]; the record is read through the pointer when the
    string is built. *)
Definition Undefined__str__ (self : PyObj) (h : gmap loc SDL_Event) : printed :=
  with_attr self "sdl_event" (fun sdl_event =>
  if truthy sdl_event then
    match sdl_event with
    | VPtr p =>
        Text ("<Undefined sdl_event.type=" ++ decimal (sdl_type (h !!! p)) ++ ">")
    | _ => Raises (MissingAttribute "type")
    end
  else Text "<Undefined>").

(** ** Waiting for events *)

Inductive wait_exn :=
| ValueError
| OverflowError.

(** A blocking call of the backend: it returns after [blocked] milliseconds
    with a C int and the world it leaves, or it never returns. *)
Inductive blocking :=
| Returns (blocked : Z) (code : Z) (w : World)
| Hangs.

(** Outcome of [wait] and [event_wait]: the exception the conversion of the
    timeout raised, before the backend is called; the backend call never
    returning; or the milliseconds spent blocked in the backend and what the
    code after the call came to. *)
Inductive waited (A : Type) :=
| WaitRaised (e : wait_exn)
| Hung
| Finished (blocked : Z) (r : result A).
Arguments WaitRaised {A} e.
Arguments Hung {A}.
Arguments Finished {A} blocked r.

(** [int(x)] on a binary64 float: the integer part, towards zero; an
    infinity raises [OverflowError] and a NaN [ValueError]. *)
Definition float_to_int (x : float) : wait_exn + Z :=
  match Prim2SF x with
  | S754_zero _ => inr 0
  | S754_finite s m e =>
      let magnitude :=
        (if 0 <=? e then Z.pos m * 2 ^ e else Z.pos m / 2 ^ (- e))%Z in
      inr (if s then - magnitude else magnitude)
  | S754_infinity _ => inl OverflowError
  | S754_nan => inl ValueError
  end.

(** Whether a Python int can be passed for a C [int] parameter. *)
Definition fits_c_int (n : Z) : bool :=
  ((- 2 ^ 31 <=? n) && (n <? 2 ^ 31))%Z.

Section Waiting.

Context (lib : tcod_lib).

(** [SDL_WaitEventTimeout(NULL, ms)] and [SDL_WaitEvent(NULL)]: whatever the
    backend does to the queue while the caller is blocked. *)
Context (SDL_WaitEventTimeout : Z -> World -> blocking).
Context (SDL_WaitEvent : World -> blocking).

(** [wait(timeout)] for a float or [None]: the argument
    [int(timeout * 1000)] is computed, and converted to a C int, before the
    backend is called; the value the backend returns is dropped. *)
Definition wait (timeout : option float) (w : World)
    : waited get_frame * World :=
  match timeout with
  | Some timeout =>
      match float_to_int (timeout * 1000)%float with
      | inl e => (WaitRaised e, w)
      | inr ms =>
          if fits_c_int ms then
            match SDL_WaitEventTimeout ms w with
            | Returns blocked _ w' =>
                (Finished blocked (fst (get w')), snd (get w'))
            | Hangs => (Hung, w)
            end
          else (WaitRaised OverflowError, w)
      end
  | None =>
      match SDL_WaitEvent w with
      | Returns blocked _ w' =>
          (Finished blocked (fst (get w')), snd (get w'))
      | Hangs => (Hung, w)
      end
  end.

(** [EventDispatch.event_wait(self, timeout)]: the generator [wait] returns
    is dropped, and [event_get] makes its own. *)
Definition event_wait (bound : nat) (self : Dispatcher)
    (timeout : option float) (w : World) : waited unit * World :=
  match wait timeout w with
  | (WaitRaised e, w') => (WaitRaised e, w')
  | (Hung, w') => (Hung, w')
  | (Finished blocked (Ok _), w') =>
      (Finished blocked (fst (event_get lib bound self w')),
       snd (event_get lib bound self w'))
  | (Finished blocked (Raise e), w') => (Finished blocked (Raise e), w')
  | (Finished blocked Unfinished, w') => (Finished blocked Unfinished, w')
  end.

End Waiting.

(** Modelled from the spec: the backend's wait-for-event-with-timeout call,
    which "blocks the calling context until at least one native event is
    available or an optional timeout (millisecond precision) elapses", where
    "a null/absent timeout blocks indefinitely".  [next] is what is still to
    come when the call is made: nothing, or the milliseconds, at least one,
    until a record is queued, and that record.  The call is made with a null
    record pointer and takes nothing off the queue.  Of a timeout below zero
    the spec says nothing; here it has elapsed when the call is made. *)
Definition arrival : Type := option (positive * SDL_Event).

Definition arrived (record : SDL_Event) (w : World) : World :=
  {| sdl_queue := sdl_queue w ++ [record]; heap := heap w; calls := calls w |}.

Definition wait_for_event (next : arrival) (timeout : option Z) (w : World)
    : blocking :=
  match sdl_queue w with
  | _ :: _ => Returns 0 1 w
  | [] =>
      match next, timeout with
      | Some (delay, record), Some ms =>
          if (Z.pos delay <=? ms)%Z then
            Returns (Z.pos delay) 1 (arrived record w)
          else Returns (Z.max 0 ms) 0 w
      | Some (delay, record), None =>
          Returns (Z.pos delay) 1 (arrived record w)
      | None, Some ms => Returns (Z.max 0 ms) 0 w
      | None, None => Hangs
      end
  end.

Definition timed_wait (next : arrival) (ms : Z) : World -> blocking :=
  wait_for_event next (Some ms).

Definition untimed_wait (next : arrival) : World -> blocking :=
  wait_for_event next None.

(** A world with nothing queued, nothing allocated, nothing called. *)
Definition quiet_world : World :=
  {| sdl_queue := []; heap := ∅; calls := [] |}.

(** ** Sample records *)

(** The key "a" held down, as a record whose repeat field counts 2. *)
Definition held_key : SDL_Event :=
  {| sdl_type := 0x300;
     key := {| keysym := {| scancode := 4; sym := 97; mod_ := 0 |};
               key_repeat := 2 |};
     motion := motion SDL_Event_zero; button := button SDL_Event_zero;
     wheel := wheel SDL_Event_zero; text := text SDL_Event_zero;
     window := window SDL_Event_zero |}.

(** A window event with the given sub-code and payload. *)
Definition window_record (sub x y : Z) : SDL_Event :=
  {| sdl_type := 0x200; key := key SDL_Event_zero;
     motion := motion SDL_Event_zero; button := button SDL_Event_zero;
     wheel := wheel SDL_Event_zero; text := text SDL_Event_zero;
     window := {| window_event := sub; data1 := x; data2 := y |} |}.

(** ** Reference definitions used in the statements *)

(** The names the describer is meant to report: those of the entries whose
    key intersects the mask, in the order of the table. *)
Definition matching_names (bits : Z) (table : list (Z * string)) : list string :=
  (filter (fun entry => Z.land (fst entry) bits <> 0) table).*2.

(** The attributes an instance of each class carries. *)
Definition field_names (cls : Class) : gset string :=
  {[ "type"; "sdl_event" ]} ∪
  match cls with
  | Event | Quit | Undefined => ∅
  | KeyboardEvent | KeyDown | KeyUp => {[ "scancode"; "sym"; "mod"; "repeat" ]}
  | MouseMotion =>
      {[ "pixel"; "pixel_motion"; "tile"; "tile_motion"; "state" ]}
  | MouseButtonEvent | MouseButtonDown | MouseButtonUp =>
      {[ "pixel"; "tile"; "button" ]}
  | MouseWheel => {[ "x"; "y"; "flipped" ]}
  | TextInput => {[ "text" ]}
  | WindowEvent => {[ "x"; "y" ]}
  end.

(** The ten classes [get] can instantiate. *)
Definition event_variants : list Class :=
  [ Quit; KeyDown; KeyUp; MouseMotion; MouseButtonDown; MouseButtonUp;
    MouseWheel; TextInput; WindowEvent; Undefined ].

(** The non-empty kind tags: the upper-cased names of the eight classes
    without sub-kinds, then the sixteen window labels. *)
Definition kind_tags : list string :=
  [ "QUIT"; "KEYDOWN"; "KEYUP"; "MOUSEMOTION"; "MOUSEBUTTONDOWN";
    "MOUSEBUTTONUP"; "MOUSEWHEEL"; "TEXTINPUT";
    "WindowShown"; "WindowHidden"; "WindowExposed"; "WindowMoved";
    "WindowResized"; "WindowSizeChanged"; "WindowMinimized";
    "WindowMaximized"; "WindowRestored"; "WindowEnter"; "WindowLeave";
    "WindowFocusGained"; "WindowFocusLost"; "WindowClose"; "WindowTakeFocus";
    "WindowHitTest" ].

(** The name [dispatch] builds from a kind tag. *)
Definition handler_name (tag : string) : string := "ev_" ++ PyStr.lower tag.

(** A world with further calls recorded. *)
Definition logged (w : World) (entries : list (string * PyObj)) : World :=
  {| sdl_queue := sdl_queue w; heap := heap w; calls := calls w ++ entries |}.

(** The handler call an event gives rise to: none for an empty tag. *)
Definition handler_calls (event : PyObj) : list (string * PyObj) :=
  match ob_dict event !! "type" with
  | Some (VStr tag) =>
      if PyStr.truthy tag then [(handler_name tag, event)] else []
  | _ => []
  end.

(** The world once [SDL_PollEvent] has moved [record] from the head of the
    queue to [buffer], leaving [rest] queued. *)
Definition polled (buffer : loc) (record : SDL_Event) (rest : list SDL_Event)
    (w : World) : World :=
  {| sdl_queue := rest; heap := <[buffer := record]> (heap w); calls := calls w |}.

(** A world holding one key-down record, nothing allocated, nothing called. *)
Definition one_key_world : World :=
  {| sdl_queue := [held_key]; heap := ∅; calls := [] |}.

(** The calls one event gives rise to in a dispatch cycle: [dispatch] itself,
    then the handler it selects, if any. *)
Definition cycle_calls (event : PyObj) : list (string * PyObj) :=
  ("dispatch", event) :: handler_calls event.

(** A world with three queued records: a key press, a window event with a
    sub-code outside the table, and a resize to 640 by 480. *)
Definition three_record_world : World :=
  {| sdl_queue := [held_key; window_record 17 0 0; window_record 5 640 480];
     heap := ∅;
     calls := [] |}.

(** ** Further reference definitions *)

#[global] Instance Value_eq_dec : EqDecision Value.
Proof. solve_decision. Defined.

(** Every bit some key of the table has. *)
Definition table_bits (table : list (Z * string)) : Z :=
  fold_right (fun entry bits => Z.lor (fst entry) bits) 0 table.

(** A mouse-motion record at pixel ([x], [y]) reached by the motion
    ([dx], [dy]). *)
Definition motion_record (x y dx dy : Z) : SDL_Event :=
  {| sdl_type := 0x400; key := key SDL_Event_zero;
     motion := {| motion_x := x; motion_y := y; xrel := dx; yrel := dy;
                  motion_state := 0 |};
     button := button SDL_Event_zero; wheel := wheel SDL_Event_zero;
     text := text SDL_Event_zero; window := window SDL_Event_zero |}.

(** A record of kind [ty] whose window view has sub-code [sub]. *)
Definition record_of_kind (ty sub : Z) : SDL_Event :=
  {| sdl_type := ty; key := key SDL_Event_zero;
     motion := motion SDL_Event_zero; button := button SDL_Event_zero;
     wheel := wheel SDL_Event_zero; text := text SDL_Event_zero;
     window := {| window_event := sub; data1 := 0; data2 := 0 |} |}.

(** The class whose instances carry a given kind tag. *)
Definition class_of_tag (tag : string) : Class :=
  if decide (tag = "") then Undefined
  else if decide (tag = "QUIT") then Quit
  else if decide (tag = "KEYDOWN") then KeyDown
  else if decide (tag = "KEYUP") then KeyUp
  else if decide (tag = "MOUSEMOTION") then MouseMotion
  else if decide (tag = "MOUSEBUTTONDOWN") then MouseButtonDown
  else if decide (tag = "MOUSEBUTTONUP") then MouseButtonUp
  else if decide (tag = "MOUSEWHEEL") then MouseWheel
  else if decide (tag = "TEXTINPUT") then TextInput
  else WindowEvent.

(** A record of a kind the class table does not list. *)
Definition unlisted_record : SDL_Event := record_of_kind 0x9999 0.

(** A world with an unlisted record queued before a key press. *)
Definition stale_world : World :=
  {| sdl_queue := [unlisted_record; held_key]; heap := ∅; calls := [] |}.

(** * Properties *)

(** ** The bitmask describer *)

Lemma describe_loop_acc bits table (acc : list string) :
  fold_left
    (fun (result : list string) '(bit, name) =>
       if Z.eqb (Z.land bit bits) 0 then result else (result ++ [name])%list)
    table acc
  = (acc ++ matching_names bits table)%list.
Proof.
  revert acc. induction table as [|[bit name] table IH]; intros acc; simpl.
  - unfold matching_names. simpl. by rewrite app_nil_r.
  - rewrite IH. unfold matching_names. rewrite filter_cons. simpl.
    destruct (Z.eqb_spec (Z.land bit bits) 0) as [E|E].
    + rewrite decide_False by tauto. done.
    + rewrite decide_True by done. simpl. by rewrite <- app_assoc.
Qed.

Lemma describe_bitmask_unfold bits table default :
  _describe_bitmask bits table default =
  match matching_names bits table with
  | [] => default
  | names => VStr (PyStr.join "|" names)
  end.
Proof.
  unfold _describe_bitmask. rewrite describe_loop_acc, app_nil_l.
  by destruct (matching_names bits table).
Qed.

Lemma matching_names_zero table : matching_names 0 table = [].
Proof.
  unfold matching_names. induction table as [|[bit name] table IH]; [done|].
  rewrite filter_cons. simpl. rewrite Z.land_0_r.
  rewrite decide_False by tauto. exact IH.
Qed.

(** C3: the describer returns the default when the mask is 0 or meets no key
    of the table, the label alone when exactly one entry matches, and
    otherwise the matching labels in table order with a bar between each two. *)
Theorem describe_bitmask_spec (bits : Z) (table : list (Z * string))
    (default : Value) :
  let names := matching_names bits table in
  let result := _describe_bitmask bits table default in
  (bits = 0 -> result = default)
  /\ (names = [] -> result = default)
  /\ (forall name, names = [name] -> result = VStr name)
  /\ (forall first second others,
        names = first :: second :: others ->
        result = VStr (first ++ "|" ++ PyStr.join "|" (second :: others)))
  /\ (names <> [] -> result = VStr (PyStr.join "|" names)).
Proof.
  intros names result. subst result. rewrite describe_bitmask_unfold.
  fold names. repeat split.
  - intros ->. subst names. by rewrite matching_names_zero.
  - by intros ->.
  - by intros name ->.
  - by intros first second others ->.
  - intros Hne. by destruct names.
Qed.

Example describe_bitmask_buttons :
  _describe_bitmask 0 _REVERSE_BUTTON_MASK_TABLE (VStr "0") = VStr "0"
  /\ _describe_bitmask 4 _REVERSE_BUTTON_MASK_TABLE (VStr "0")
     = VStr "tcod.event.BUTTON_RMASK"
  /\ _describe_bitmask 32 _REVERSE_BUTTON_MASK_TABLE VNone = VNone
  /\ _describe_bitmask 21 _REVERSE_BUTTON_MASK_TABLE (VStr "0")
     = VStr "tcod.event.BUTTON_LMASK|tcod.event.BUTTON_RMASK|tcod.event.BUTTON_X2MASK".
Proof. repeat split; reflexivity. Qed.

(** ** Mouse motion *)

(** [py_int] drops the fractional part: the result is the integer nearest to
    zero among the two that enclose the argument. *)
Lemma py_int_nonneg (x : Q) :
  (0 <= x)%Q -> (inject_Z (py_int x) <= x)%Q /\ (x < inject_Z (py_int x + 1))%Q.
Proof.
  destruct x as [n d]. unfold py_int, Qle, Qlt. simpl. intros Hn.
  rewrite Z.mul_1_r in Hn |- *.
  assert (Hd : 0 < Z.pos d) by lia.
  rewrite Z.quot_div_nonneg by lia.
  pose proof (Z.mul_div_le n (Z.pos d) Hd).
  pose proof (Z.mul_succ_div_gt n (Z.pos d) Hd).
  nia.
Qed.

Lemma py_int_opp (x : Q) : py_int (- x) = - py_int x.
Proof. destruct x as [n d]. unfold py_int. simpl. apply Z.quot_opp_l. lia. Qed.

Example py_int_samples :
  py_int (5 # 4) = 1 /\ py_int (5 # 8) = 0 /\ py_int (- (7 # 4)) = -1
  /\ py_int (- (1 # 2)) = 0.
Proof. repeat split; reflexivity. Qed.

(** C4: the [tile] of a mouse-motion event is the truncated transform of the
    pixel position, and [tile_motion] is [tile] minus the truncated transform
    of the position before the motion; with 8-pixel tiles, position (10,10)
    and motion (5,5) give tile (1,1) and tile motion (1,1). *)
Theorem mouse_motion_tile (lib : tcod_lib) (cls : Class) (sdl_event : cdata) :
  let m := motion (deref sdl_event) in
  let transform x y := TCOD_sys_pixel_to_tile lib (inject_Z x, inject_Z y) in
  let here := transform (motion_x m) (motion_y m) in
  let before := transform (motion_x m - xrel m) (motion_y m - yrel m) in
  let event := MouseMotion_from_sdl_event lib cls sdl_event in
  ob_dict event !! "tile"
    = Some (VPoint (py_int (fst here)) (py_int (snd here)))
  /\ ob_dict event !! "tile_motion"
    = Some (VPoint (py_int (fst here) - py_int (fst before))
                   (py_int (snd here) - py_int (snd before)))
  /\ ob_dict event !! "pixel" = Some (VPoint (motion_x m) (motion_y m))
  /\ ob_dict event !! "pixel_motion" = Some (VPoint (xrel m) (yrel m))
  /\ forall state p record,
       let moved :=
         {| ptr := p;
            deref := {| sdl_type := sdl_type record; key := key record;
                        motion := {| motion_x := 10; motion_y := 10;
                                     xrel := 5; yrel := 5;
                                     motion_state := state |};
                        button := button record; wheel := wheel record;
                        text := text record; window := window record |} |} in
       let event8 := MouseMotion_from_sdl_event SDL2_8px cls moved in
       ob_dict event8 !! "tile" = Some (VPoint 1 1)
       /\ ob_dict event8 !! "tile_motion" = Some (VPoint 1 1).
Proof.
  intros m transform here before event.
  repeat split; try reflexivity.
Qed.

(** ** Keyboard events *)

(** C7 (as the code has it): a key-down or key-up event carries the record's
    scancode, key symbol and modifier mask unchanged, and as its repeat flag
    the truth value of the record's repeat field. *)
Theorem keyboard_event_fields (lib : tcod_lib) (sdl_event : cdata) :
  let k := key (deref sdl_event) in
  Forall
    (fun cls =>
       exists event,
         from_sdl_event lib cls sdl_event = Ok event
         /\ ob_type event = cls
         /\ ob_dict event !! "scancode" = Some (VInt (scancode (keysym k)))
         /\ ob_dict event !! "sym" = Some (VInt (sym (keysym k)))
         /\ ob_dict event !! "mod" = Some (VInt (mod_ (keysym k)))
         /\ exists flag,
              ob_dict event !! "repeat" = Some (VBool flag)
              /\ (flag = true <-> key_repeat k <> 0)
              /\ (py_eq (VBool flag) (VInt (key_repeat k)) = true
                  <-> key_repeat k = 0 \/ key_repeat k = 1))
    [KeyDown; KeyUp].
Proof.
  intros k.
  assert (Hflag : forall r,
             (py_bool r = true <-> r <> 0)
             /\ (py_eq (VBool (py_bool r)) (VInt r) = true <-> r = 0 \/ r = 1)).
  { intros r. unfold py_bool, py_eq.
    destruct (Z.eqb_spec r 0) as [->|Hr]; cbn [negb Z.b2z]; rewrite Z.eqb_eq.
    - split; [split; [discriminate | congruence] | lia].
    - split; [tauto | lia]. }
  repeat constructor; eexists; (split; [reflexivity|]);
    repeat (split; [reflexivity|]); eexists; (split; [reflexivity|]);
    apply Hflag.
Qed.

(** The repeat field is not copied as it stands: a record whose field holds
    2 yields an event whose [repeat] is [True], and [True == 2] is false. *)
Lemma keyboard_repeat_not_verbatim :
  let sdl_event := {| ptr := 1%positive; deref := held_key |} in
  key_repeat (key (deref sdl_event)) = 2
  /\ exists event,
       from_sdl_event SDL2_8px KeyDown sdl_event = Ok event
       /\ ob_dict event !! "repeat" = Some (VBool true)
       /\ ob_dict event !! "repeat" <> Some (VInt 2)
       /\ py_eq (VBool true) (VInt 2) = false.
Proof.
  split; [reflexivity|]. eexists. split; [reflexivity|].
  split; [reflexivity|]. split; [discriminate | reflexivity].
Qed.

(** ** Dict literals keyed by constants of the C library *)

Lemma dict_literal_snoc {V : Type} (entries : list (Z * V)) (k : Z) (v : V) :
  dict_literal (entries ++ [(k, v)]) = <[k := v]> (dict_literal entries).
Proof. unfold dict_literal. by rewrite fold_left_app. Qed.

Lemma dict_literal_lookup_None {V : Type} (entries : list (Z * V)) (k : Z) :
  dict_literal entries !! k = None <-> k ∉ entries.*1.
Proof.
  induction entries as [|[k' v'] entries IH] using rev_ind.
  - split; [intros _; apply not_elem_of_nil | intros _; apply lookup_empty].
  - rewrite dict_literal_snoc, fmap_app, lookup_insert_None, IH.
    rewrite not_elem_of_app. simpl. rewrite list_elem_of_singleton.
    intuition congruence.
Qed.

Lemma dict_literal_lookup_Some {V : Type} (entries : list (Z * V)) (k : Z) (v : V) :
  dict_literal entries !! k = Some v -> (k, v) ∈ entries.
Proof.
  induction entries as [|[k' v'] entries IH] using rev_ind.
  - unfold dict_literal. simpl. by rewrite lookup_empty.
  - rewrite dict_literal_snoc, lookup_insert_Some, elem_of_app.
    intros [[-> ->]|[_ Hk]]; [right; apply list_elem_of_singleton; done|].
    left. by apply IH.
Qed.

Lemma dict_literal_lookup_NoDup {V : Type} (entries : list (Z * V)) (k : Z) (v : V) :
  NoDup entries.*1 -> (k, v) ∈ entries -> dict_literal entries !! k = Some v.
Proof.
  induction entries as [|[k' v'] entries IH] using rev_ind.
  - intros _ Hin. by apply elem_of_nil in Hin.
  - rewrite fmap_app, NoDup_app, elem_of_app, dict_literal_snoc.
    intros (Hnd & Hfresh & _) [Hin|Hin].
    + assert (k ∈ entries.*1) as Hk.
      { apply list_elem_of_fmap. by exists (k, v). }
      rewrite lookup_insert_ne; [by apply IH|].
      intros ->. apply (Hfresh _ Hk). simpl. apply list_elem_of_here.
    + apply list_elem_of_singleton in Hin. injection Hin as -> ->.
      apply lookup_insert_eq.
Qed.

(** ** Window events *)

(** C5: a window record whose sub-code is one of the sixteen of the table
    becomes a [WindowEvent] whose [type] is the label listed for that
    sub-code ("WindowResized" for the resized code) and whose [x] and [y] are
    the record's two data values; any other sub-code gives an [Undefined]
    event that refers to the record. *)
Theorem window_event_subkind (lib : tcod_lib) (sdl_event : cdata) :
  NoDup (WINDOW_TYPES_items lib).*1 ->
  let w := window (deref sdl_event) in
  let event := WindowEvent_from_sdl_event lib WindowEvent sdl_event in
  length (WINDOW_TYPES_items lib) = 16%nat
  /\ (forall label,
        (window_event w, label) ∈ WINDOW_TYPES_items lib ->
        ob_type event = WindowEvent
        /\ ob_dict event !! "type" = Some (VStr label)
        /\ ob_dict event !! "x" = Some (VInt (data1 w))
        /\ ob_dict event !! "y" = Some (VInt (data2 w))
        /\ ob_dict event !! "sdl_event" = Some (VPtr (ptr sdl_event)))
  /\ (window_event w = SDL_WINDOWEVENT_RESIZED lib ->
        ob_dict event !! "type" = Some (VStr "WindowResized"))
  /\ (window_event w ∉ (WINDOW_TYPES_items lib).*1 ->
        ob_type event = Undefined
        /\ ob_dict event !! "type" = Some (VStr "")
        /\ ob_dict event !! "sdl_event" = Some (VPtr (ptr sdl_event))).
Proof.
  intros Hnd w event.
  assert (Hlisted : forall label,
             (window_event w, label) ∈ WINDOW_TYPES_items lib ->
             event =
               setattr
                 (WindowEvent__init__ (object_new WindowEvent) label
                    (data1 w) (data2 w))
                 "sdl_event" (VPtr (ptr sdl_event))).
  { intros label Hin. subst event. unfold WindowEvent_from_sdl_event.
    fold w. unfold __WINDOW_TYPES.
    by rewrite (dict_literal_lookup_NoDup _ _ _ Hnd Hin). }
  split; [reflexivity|]. split; [|split].
  - intros label Hin. rewrite (Hlisted label Hin). repeat split.
  - intros Hsub. rewrite (Hlisted "WindowResized"); [reflexivity|].
    rewrite Hsub. unfold WINDOW_TYPES_items.
    repeat first [apply list_elem_of_here | apply list_elem_of_further].
  - intros Hout. subst event. unfold WindowEvent_from_sdl_event. fold w.
    apply dict_literal_lookup_None in Hout. unfold __WINDOW_TYPES.
    rewrite Hout. repeat split.
Qed.

Lemma window_event_subkind_witness :
  let sdl_event := {| ptr := 1%positive; deref := window_record 5 640 480 |} in
  let event := WindowEvent_from_sdl_event SDL2_8px WindowEvent sdl_event in
  NoDup (WINDOW_TYPES_items SDL2_8px).*1
  /\ ob_dict event !! "type" = Some (VStr "WindowResized")
  /\ ob_dict event !! "x" = Some (VInt 640)
  /\ ob_dict event !! "y" = Some (VInt 480).
Proof.
  intros sdl_event event.
  assert (Hnd : NoDup (WINDOW_TYPES_items SDL2_8px).*1).
  { apply (bool_decide_unpack _). vm_compute. exact I. }
  split; [exact Hnd|].
  destruct (window_event_subkind SDL2_8px sdl_event Hnd) as (_ & Hin & _ & _).
  destruct (Hin "WindowResized") as (_ & Ht & Hx & Hy & _).
  - apply (bool_decide_unpack _). vm_compute. exact I.
  - auto.
Defined.

(** ** Translation by kind code *)

Lemma translate_never_raises (lib : tcod_lib) (sdl_event : cdata) :
  exists event, translate lib sdl_event = Ok event.
Proof.
  unfold translate.
  destruct (_SDL_TO_CLASS_TABLE lib !! sdl_type (deref sdl_event))
    as [cls|] eqn:Hcls; [|by eexists].
  apply dict_literal_lookup_Some in Hcls.
  unfold SDL_TO_CLASS_TABLE_items in Hcls.
  repeat
    (apply elem_of_cons in Hcls as [Hcls|Hcls];
     [injection Hcls as _ ->; eexists; reflexivity|]).
  by apply elem_of_nil in Hcls.
Qed.

(** C1 (as the code has it): a record whose kind code is one of the eight
    mapped codes other than the window code becomes an instance of the class
    the table lists for that code; a record with the window code becomes a
    [WindowEvent] when its sub-code is one of the sixteen listed and an
    [Undefined] event otherwise; a record with any other kind code becomes an
    [Undefined] event, and no exception is raised. *)
Theorem translate_by_kind_code (lib : tcod_lib) (sdl_event : cdata) :
  NoDup (SDL_TO_CLASS_TABLE_items lib).*1 ->
  let code := sdl_type (deref sdl_event) in
  let sub := window_event (window (deref sdl_event)) in
  length (SDL_TO_CLASS_TABLE_items lib) = 9%nat
  /\ (forall cls,
        (code, cls) ∈ SDL_TO_CLASS_TABLE_items lib ->
        _SDL_TO_CLASS_TABLE lib !! code = Some cls
        /\ exists event,
             translate lib sdl_event = Ok event
             /\ (cls <> WindowEvent -> ob_type event = cls)
             /\ (cls = WindowEvent -> sub ∈ (WINDOW_TYPES_items lib).*1 ->
                 ob_type event = WindowEvent)
             /\ (cls = WindowEvent -> sub ∉ (WINDOW_TYPES_items lib).*1 ->
                 ob_type event = Undefined))
  /\ (code ∉ (SDL_TO_CLASS_TABLE_items lib).*1 ->
        translate lib sdl_event = Ok (Undefined_from_sdl_event Undefined sdl_event)
        /\ ob_type (Undefined_from_sdl_event Undefined sdl_event) = Undefined).
Proof.
  intros Hnd code sub. split; [reflexivity|]. split.
  - intros cls Hin.
    assert (Hcls : _SDL_TO_CLASS_TABLE lib !! code = Some cls)
      by (by apply dict_literal_lookup_NoDup).
    split; [exact Hcls|].
    unfold translate. fold code. rewrite Hcls.
    unfold SDL_TO_CLASS_TABLE_items in Hin.
    repeat
      (apply elem_of_cons in Hin as [Hin|Hin];
       [injection Hin as _ ->|]);
      [..|by apply elem_of_nil in Hin].
    1-8: eexists; split; [reflexivity|];
         split; [reflexivity|split; discriminate].
    (* the window code *)
    cbn [from_sdl_event]. unfold WindowEvent_from_sdl_event. fold sub.
    unfold __WINDOW_TYPES.
    destruct (dict_literal (WINDOW_TYPES_items lib) !! sub) as [label|] eqn:Hsub.
    + eexists. split; [reflexivity|]. split; [done|]. split; [done|].
      intros _ Hout. apply dict_literal_lookup_None in Hout. congruence.
    + eexists. split; [reflexivity|]. split; [done|]. split; [|done].
      intros _ Hlisted. apply dict_literal_lookup_None in Hsub. done.
  - intros Hout. apply dict_literal_lookup_None in Hout.
    unfold translate. fold code. unfold _SDL_TO_CLASS_TABLE. rewrite Hout.
    split; reflexivity.
Qed.

Lemma translate_by_kind_code_witness :
  let sdl_event := {| ptr := 1%positive; deref := held_key |} in
  NoDup (SDL_TO_CLASS_TABLE_items SDL2_8px).*1
  /\ exists event,
       translate SDL2_8px sdl_event = Ok event /\ ob_type event = KeyDown.
Proof.
  intros sdl_event.
  assert (Hnd : NoDup (SDL_TO_CLASS_TABLE_items SDL2_8px).*1).
  { apply (bool_decide_unpack _). vm_compute. exact I. }
  split; [exact Hnd|].
  destruct (translate_by_kind_code SDL2_8px sdl_event Hnd) as (_ & Hin & _).
  destruct (Hin KeyDown) as (_ & event & Hev & Hcls & _).
  - apply (bool_decide_unpack _). vm_compute. exact I.
  - exists event. split; [exact Hev|]. apply Hcls. discriminate.
Defined.

(** The window code does not always yield a [WindowEvent]: with a sub-code
    outside the sixteen listed, the record is mapped by the class table to
    [WindowEvent] and translated to an [Undefined] event. *)
Lemma window_code_may_yield_undefined :
  let sdl_event := {| ptr := 1%positive; deref := window_record 17 0 0 |} in
  sdl_type (deref sdl_event) = SDL_WINDOWEVENT SDL2_8px
  /\ _SDL_TO_CLASS_TABLE SDL2_8px !! sdl_type (deref sdl_event) = Some WindowEvent
  /\ exists event,
       translate SDL2_8px sdl_event = Ok event
       /\ ob_type event = Undefined
       /\ ob_type event <> WindowEvent.
Proof.
  split; [reflexivity|]. split; [reflexivity|].
  eexists. split; [reflexivity|]. split; [reflexivity | discriminate].
Qed.

(** ** What every constructed event carries *)

Lemma dom_setattr (self : PyObj) (name : string) (v : Value) :
  dom (ob_dict (setattr self name v)) = {[ name ]} ∪ dom (ob_dict self).
Proof. unfold setattr. cbn [ob_dict]. by rewrite dom_insert_L. Qed.

(** The attribute names of a constructed event, one [setattr] at a time. *)
Ltac dom_fields :=
  cbv beta iota zeta delta
    [Quit_from_sdl_event KeyboardEvent_from_sdl_event KeyboardEvent__init__
     MouseMotion_from_sdl_event MouseMotion__init__
     MouseButtonEvent_from_sdl_event MouseButtonEvent__init__
     MouseWheel_from_sdl_event MouseWheel__init__
     TextInput_from_sdl_event TextInput__init__
     WindowEvent__init__ Undefined_from_sdl_event Undefined__init__
     Event__init__];
  rewrite ?dom_setattr; cbn [ob_type setattr object_new ob_dict];
  rewrite ?dom_empty_L; unfold field_names; set_solver.

(** C9: each of the ten kinds of event built from a record stores the pointer
    to that record as its [sdl_event]; its [type] is settled by its class
    (the upper-cased class name, the empty string for [Undefined], the
    label of the sub-code for a [WindowEvent]) and its attributes are those
    of its class, whatever the record holds. *)
Theorem constructed_event_shape (lib : tcod_lib) (sdl_event : cdata) :
  let sub := window_event (window (deref sdl_event)) in
  Forall
    (fun cls =>
       exists event,
         from_sdl_event lib cls sdl_event = Ok event
         /\ ob_dict event !! "sdl_event" = Some (VPtr (ptr sdl_event))
         /\ dom (ob_dict event) = field_names (ob_type event)
         /\ (ob_type event = cls \/ (cls = WindowEvent /\ ob_type event = Undefined))
         /\ exists tag,
              ob_dict event !! "type" = Some (VStr tag)
              /\ match ob_type event with
                 | Undefined => tag = ""
                 | WindowEvent => (sub, tag) ∈ WINDOW_TYPES_items lib
                 | c => tag = PyStr.upper (__name__ c)
                 end)
    event_variants.
Proof.
  intros sub.
  assert (Hwin :
    exists event,
      from_sdl_event lib WindowEvent sdl_event = Ok event
      /\ ob_dict event !! "sdl_event" = Some (VPtr (ptr sdl_event))
      /\ dom (ob_dict event) = field_names (ob_type event)
      /\ (ob_type event = WindowEvent
          \/ (WindowEvent = WindowEvent /\ ob_type event = Undefined))
      /\ exists tag,
           ob_dict event !! "type" = Some (VStr tag)
           /\ match ob_type event with
              | Undefined => tag = ""
              | WindowEvent => (sub, tag) ∈ WINDOW_TYPES_items lib
              | c => tag = PyStr.upper (__name__ c)
              end).
  { cbn [from_sdl_event]. unfold WindowEvent_from_sdl_event. fold sub.
    destruct (__WINDOW_TYPES lib !! sub) as [label|] eqn:Hsub.
    - apply dict_literal_lookup_Some in Hsub.
      eexists. split; [reflexivity|]. split; [reflexivity|].
      split; [dom_fields|]. split; [by left|].
      exists label. split; [reflexivity | exact Hsub].
    - eexists. split; [reflexivity|]. split; [reflexivity|].
      split; [dom_fields|]. split; [by right|].
      exists "". split; reflexivity. }
  unfold event_variants.
  repeat (apply Forall_cons; split); try (by apply Forall_nil);
    try exact Hwin.
  all: eexists; split; [reflexivity|]; split; [reflexivity|];
       split; [dom_fields|]; split; [by left|];
       eexists; split; reflexivity.
Qed.

(** ** Kind tags and handler names *)

Lemma handler_names_of_kind_tags :
  handler_name <$> kind_tags = drop 3 EventDispatch_methods.
Proof. reflexivity. Qed.

Lemma hasattr_kind_tag (self : Dispatcher) (tag : string) :
  tag ∈ kind_tags -> hasattr self (handler_name tag) = true.
Proof.
  intros Hin. unfold hasattr. apply orb_true_iff. left.
  apply bool_decide_eq_true.
  assert (Hname : handler_name tag ∈ handler_name <$> kind_tags)
    by (apply list_elem_of_fmap; by exists tag).
  rewrite handler_names_of_kind_tags in Hname.
  unfold EventDispatch_methods in *. cbn [drop] in Hname.
  by do 3 apply list_elem_of_further.
Qed.

Lemma window_label_is_kind_tag (lib : tcod_lib) (sub : Z) (label : string) :
  __WINDOW_TYPES lib !! sub = Some label -> label ∈ kind_tags.
Proof.
  intros Hsub. apply dict_literal_lookup_Some in Hsub.
  unfold WINDOW_TYPES_items in Hsub.
  repeat
    (apply elem_of_cons in Hsub as [Hsub|Hsub];
     [injection Hsub as _ ->; apply (bool_decide_unpack _); by vm_compute|]).
  by apply elem_of_nil in Hsub.
Qed.

Lemma translate_kind_tag (lib : tcod_lib) (sdl_event : cdata) :
  exists event tag,
    translate lib sdl_event = Ok event
    /\ ob_dict event !! "type" = Some (VStr tag)
    /\ (tag = "" /\ ob_type event = Undefined
        \/ tag ∈ kind_tags /\ ob_type event <> Undefined).
Proof.
  unfold translate.
  destruct (_SDL_TO_CLASS_TABLE lib !! sdl_type (deref sdl_event))
    as [cls|] eqn:Hcls.
  - apply dict_literal_lookup_Some in Hcls.
    unfold SDL_TO_CLASS_TABLE_items in Hcls.
    repeat
      (apply elem_of_cons in Hcls as [Hcls|Hcls];
       [injection Hcls as _ ->|]);
      [..|by apply elem_of_nil in Hcls].
    1-8: eexists; eexists; split; [reflexivity|]; split; [reflexivity|];
         right; split; [apply (bool_decide_unpack _); by vm_compute|done].
    cbn [from_sdl_event]. unfold WindowEvent_from_sdl_event.
    destruct (__WINDOW_TYPES lib !! window_event (window (deref sdl_event)))
      as [label|] eqn:Hsub.
    + eexists; exists label. split; [reflexivity|]. split; [reflexivity|].
      right. split; [by eapply window_label_is_kind_tag | done].
    + eexists; exists "". split; [reflexivity|]. split; [reflexivity|].
      by left.
  - eexists; exists "". split; [reflexivity|]. split; [reflexivity|]. by left.
Qed.

(** ** The dispatcher *)

Lemma logged_nil (w : World) : logged w [] = w.
Proof. destruct w. unfold logged. simpl. by rewrite app_nil_r. Qed.

(** [dispatch] on an event whose [type] is a string, case by case. *)
Lemma dispatch_str (self : Dispatcher) (event : PyObj) (tag : string) (w : World) :
  ob_dict event !! "type" = Some (VStr tag) ->
  dispatch self event w =
    if PyStr.truthy tag then
      if hasattr self (handler_name tag)
      then (Ok tt, logged w [(handler_name tag, event)])
      else (Raise (AttributeError (handler_name tag)), w)
    else (Ok tt, w).
Proof.
  intros Htype. unfold dispatch, getattr. rewrite Htype.
  unfold mbind, M_bind, mret, M_ret. cbn [truthy].
  destruct (PyStr.truthy tag); [|reflexivity].
  cbn [str_lower]. unfold mret, M_ret, getattr_method. fold (handler_name tag).
  by destruct (hasattr self (handler_name tag)).
Qed.

Lemma dispatch_kind_tag (self : Dispatcher) (event : PyObj) (tag : string) (w : World) :
  ob_dict event !! "type" = Some (VStr tag) ->
  tag = "" \/ tag ∈ kind_tags ->
  dispatch self event w = (Ok tt, logged w (handler_calls event)).
Proof.
  intros Htype Htag. rewrite (dispatch_str _ _ _ _ Htype).
  unfold handler_calls. rewrite Htype.
  destruct Htag as [->|Hin]; [by rewrite logged_nil|].
  rewrite (hasattr_kind_tag self tag Hin).
  by destruct (PyStr.truthy tag); [|rewrite logged_nil].
Qed.

(** C2: dispatching a translated event enters the one method named "ev_"
    followed by the lower-cased kind tag, with the event as its argument, and
    nothing else; a tag "KEYDOWN" leads to [ev_keydown] alone, and the empty
    tag of [Undefined] to no call at all. *)
Theorem dispatch_routes_by_kind (self : Dispatcher) (lib : tcod_lib)
    (sdl_event : cdata) (w : World) :
  (exists event tag,
      translate lib sdl_event = Ok event
      /\ ob_dict event !! "type" = Some (VStr tag)
      /\ dispatch self event w
         = (Ok tt,
            logged w (if PyStr.truthy tag
                      then [("ev_" ++ PyStr.lower tag, event)] else [])))
  /\ (forall event,
        ob_dict event !! "type" = Some (VStr "KEYDOWN") ->
        dispatch self event w = (Ok tt, logged w [("ev_keydown", event)]))
  /\ (forall event,
        ob_dict event !! "type" = Some (VStr "") ->
        dispatch self event w = (Ok tt, w))
  /\ (forall event,
        ob_type event = Undefined ->
        translate lib sdl_event = Ok event ->
        dispatch self event w = (Ok tt, w)).
Proof.
  split; [|split; [|split]].
  - destruct (translate_kind_tag lib sdl_event) as (event & tag & Htr & Htype & Htag).
    exists event, tag. split; [exact Htr|]. split; [exact Htype|].
    rewrite (dispatch_kind_tag _ _ tag _ Htype) by tauto.
    unfold handler_calls. by rewrite Htype.
  - intros event Htype.
    rewrite (dispatch_kind_tag _ _ "KEYDOWN" _ Htype).
    + unfold handler_calls. by rewrite Htype.
    + right. apply (bool_decide_unpack _). by vm_compute.
  - intros event Htype. by rewrite (dispatch_str _ _ _ _ Htype).
  - intros event Hcls Htr.
    destruct (translate_kind_tag lib sdl_event)
      as (event' & tag & Htr' & Htype & [[-> _]|[_ Hdef]]);
      rewrite Htr in Htr'; injection Htr' as <-; [|done].
    by rewrite (dispatch_str _ _ _ _ Htype).
Qed.

(** ** The event source *)

Lemma get_resume_nil (lib : tcod_lib) (buffer : loc) (w : World) :
  sdl_queue w = [] -> get_resume lib buffer w = (Ok (None, GetFinished), w).
Proof.
  intros Hq. unfold get_resume, mbind, M_bind, SDL_PollEvent. by rewrite Hq.
Qed.

Lemma get_resume_cons (lib : tcod_lib) (buffer : loc) (w : World)
    (record : SDL_Event) (rest : list SDL_Event) :
  sdl_queue w = record :: rest ->
  get_resume lib buffer w =
    let w' := polled buffer record rest w in
    match translate lib {| ptr := buffer; deref := record |} with
    | Ok event => (Ok (Some event, GetSuspended buffer), w')
    | Raise e => (Raise e, w')
    | Unfinished => (Unfinished, w')
    end.
Proof.
  intros Hq. unfold get_resume, mbind, M_bind, SDL_PollEvent. rewrite Hq.
  cbn [Z.eqb]. unfold ffi_read, lift. cbn [heap].
  rewrite lookup_total_insert_eq. fold (polled buffer record rest w).
  by destruct (translate lib _).
Qed.

(** What a resumption of the generator yields is the translation of the
    record that was at the head of the queue, read through the buffer. *)
Lemma get_next_yields (lib : tcod_lib) (g g' : get_frame) (w w' : World)
    (event : PyObj) :
  get_next lib g w = (Ok (Some event, g'), w') ->
  exists buffer record,
    head (sdl_queue w) = Some record
    /\ translate lib {| ptr := buffer; deref := record |} = Ok event
    /\ g' = GetSuspended buffer.
Proof.
  assert (Hres : forall buffer w0,
             get_resume lib buffer w0 = (Ok (Some event, g'), w') ->
             exists record,
               head (sdl_queue w0) = Some record
               /\ translate lib {| ptr := buffer; deref := record |} = Ok event
               /\ g' = GetSuspended buffer).
  { intros buffer w0. destruct (sdl_queue w0) as [|record rest] eqn:Hq.
    - rewrite (get_resume_nil _ _ _ Hq). discriminate.
    - rewrite (get_resume_cons _ _ _ _ _ Hq). cbn zeta.
      destruct (translate lib _) as [event'| |] eqn:Htr; try discriminate.
      intros [= -> <- _]. by exists record. }
  destruct g as [|buffer|]; cbn [get_next].
  - unfold mbind, M_bind, ffi_new_SDL_Event. intros Hnext.
    apply Hres in Hnext as (record & Hhead & Htr & ->). eauto.
  - intros Hnext. apply Hres in Hnext as (record & Hhead & Htr & ->). eauto.
  - discriminate.
Qed.

(** C10: whatever [get] yields has as its kind tag either the empty string
    (and is then an [Undefined] event) or one of the twenty-four tags whose
    handler [EventDispatch] defines, so dispatching it finds its handler and
    raises no [AttributeError]. *)
Theorem yielded_event_has_handler (lib : tcod_lib) (g g' : get_frame)
    (w w' : World) (event : PyObj) :
  get_next lib g w = (Ok (Some event, g'), w') ->
  exists tag,
    ob_dict event !! "type" = Some (VStr tag)
    /\ (tag = "" /\ ob_type event = Undefined
        \/ tag ∈ kind_tags
           /\ "ev_" ++ PyStr.lower tag ∈ EventDispatch_methods)
    /\ forall (self : Dispatcher) (wd : World),
         dispatch self event wd = (Ok tt, logged wd (handler_calls event)).
Proof.
  intros Hnext.
  apply get_next_yields in Hnext as (buffer & record & _ & Htr & _).
  destruct (translate_kind_tag lib {| ptr := buffer; deref := record |})
    as (event' & tag & Htr' & Htype & Htag).
  rewrite Htr in Htr'. injection Htr' as <-.
  exists tag. split; [exact Htype|]. split.
  - destruct Htag as [Hundef|[Hin _]]; [by left|right].
    split; [exact Hin|].
    pose proof (hasattr_kind_tag EventDispatch tag Hin) as Hhas.
    unfold hasattr in Hhas. cbn [added_methods EventDispatch] in Hhas.
    apply orb_true_iff in Hhas as [Hhas|Hhas];
      apply bool_decide_eq_true in Hhas; [exact Hhas|].
    by apply elem_of_nil in Hhas.
  - intros self wd. apply (dispatch_kind_tag _ _ tag); [exact Htype|tauto].
Qed.

Lemma yielded_event_has_handler_witness :
  let sdl_event := {| ptr := 1%positive; deref := held_key |} in
  let event := KeyboardEvent_from_sdl_event KeyDown sdl_event in
  get_next SDL2_8px GetCreated one_key_world
    = (Ok (Some event, GetSuspended 1%positive),
       polled 1%positive held_key []
         {| sdl_queue := [held_key];
            heap := <[1%positive := SDL_Event_zero]> ∅;
            calls := [] |})
  /\ exists tag,
       ob_dict event !! "type" = Some (VStr tag)
       /\ (tag = "" /\ ob_type event = Undefined
           \/ tag ∈ kind_tags
              /\ "ev_" ++ PyStr.lower tag ∈ EventDispatch_methods)
       /\ forall (self : Dispatcher) (wd : World),
            dispatch self event wd = (Ok tt, logged wd (handler_calls event)).
Proof.
  intros sdl_event event.
  assert (Hnext :
    get_next SDL2_8px GetCreated one_key_world
    = (Ok (Some event, GetSuspended 1%positive),
       polled 1%positive held_key []
         {| sdl_queue := [held_key];
            heap := <[1%positive := SDL_Event_zero]> ∅;
            calls := [] |})) by (vm_compute; reflexivity).
  split; [exact Hnext|].
  exact (yielded_event_has_handler SDL2_8px GetCreated _ one_key_world _ event Hnext).
Defined.

(** ** The dispatch cycle *)

Lemma last_record_in_buffer (buffer : loc) (queue : list SDL_Event)
    (zero : SDL_Event) (h : gmap loc SDL_Event) :
  fold_left (fun h record => <[buffer := record]> h) queue (<[buffer := zero]> h)
  = <[buffer := default zero (last queue)]> h.
Proof.
  revert zero. induction queue as [|record queue IH]; intros zero; [done|].
  cbn [fold_left]. rewrite insert_insert_eq, IH.
  destruct queue as [|next queue]; [done|].
  rewrite last_cons_cons.
  destruct (last_is_Some (next :: queue)) as [_ [final ->]]; done.
Qed.

(** The loop of [event_get] from a suspended generator: every queued record
    is translated and dispatched, oldest first. *)
Lemma for_in_suspended (lib : tcod_lib) (self : Dispatcher) (buffer : loc)
    (queue : list SDL_Event) :
  forall (bound : nat) (h : gmap loc SDL_Event) (c : list (string * PyObj)),
    (length queue < bound)%nat ->
    exists events,
      Forall2
        (fun record event =>
           translate lib {| ptr := buffer; deref := record |} = Ok event)
        queue events
      /\ for_in lib bound (GetSuspended buffer)
           (fun event => enter "dispatch" event ;; dispatch self event)
           {| sdl_queue := queue; heap := h; calls := c |}
         = (Ok tt,
            {| sdl_queue := [];
               heap := fold_left (fun h record => <[buffer := record]> h) queue h;
               calls := c ++ flat_map cycle_calls events |}).
Proof.
  induction queue as [|record rest IH]; intros bound h c Hbound;
    (destruct bound as [|bound]; [simpl in Hbound; lia|]).
  - exists []. split; [constructor|].
    cbn [for_in get_next]. unfold mbind at 1, M_bind at 1.
    rewrite get_resume_nil by done. cbn [fst flat_map fold_left].
    by rewrite app_nil_r.
  - destruct (translate_kind_tag lib {| ptr := buffer; deref := record |})
      as (event & tag & Htr & Htype & Htag).
    destruct (IH bound (<[buffer := record]> h)
                (c ++ cycle_calls event)%list) as (events & Hall & Hrun).
    { simpl in Hbound. lia. }
    exists (event :: events). split; [by constructor|].
    cbn [for_in get_next]. unfold mbind at 1, M_bind at 1.
    rewrite (get_resume_cons lib buffer _ record rest) by done.
    cbn zeta. rewrite Htr. cbn [fst snd].
    unfold mbind at 1, M_bind at 1. unfold mbind at 1, M_bind at 1.
    unfold enter at 1. unfold polled. cbn [sdl_queue heap calls].
    rewrite (dispatch_kind_tag self event tag _ Htype) by tauto.
    unfold logged. cbn [sdl_queue heap calls].
    unfold cycle_calls in Hrun at 1.
    replace ((c ++ [("dispatch", event)]) ++ handler_calls event)%list
      with (c ++ ("dispatch", event) :: handler_calls event)%list
      by (by rewrite <- app_assoc).
    rewrite Hrun. cbn [fold_left flat_map].
    by rewrite app_assoc.
Qed.

Lemma dispatch_entries_of_cycle (events : list PyObj) :
  (filter (fun call => call.1 = "dispatch") (flat_map cycle_calls events)).*2
  = events.
Proof.
  induction events as [|event events IH]; [done|].
  cbn [flat_map]. unfold cycle_calls at 1. cbn [app].
  rewrite filter_cons_True by done. cbn [fmap list_fmap snd].
  rewrite filter_app, fmap_app, IH.
  replace (filter (fun call => call.1 = "dispatch") (handler_calls event))
    with (@nil (string * PyObj)); [done|].
  unfold handler_calls.
  destruct (ob_dict event !! "type") as [[| | |tag| |]|]; try done.
  destruct (PyStr.truthy tag); [|done].
  by rewrite filter_cons_False by (unfold handler_name; simpl; discriminate).
Qed.

(** The first resumption allocates the buffer; from there on the generator
    behaves as one suspended on that buffer. *)
Lemma event_get_allocates (lib : tcod_lib) (self : Dispatcher) (w : World)
    (bound : nat) :
  event_get lib (S bound) self w
  = for_in lib (S bound) (GetSuspended (fresh (dom (heap w))))
      (fun event => enter "dispatch" event ;; dispatch self event)
      {| sdl_queue := sdl_queue w;
         heap := <[fresh (dom (heap w)) := SDL_Event_zero]> (heap w);
         calls := calls w |}.
Proof.
  unfold event_get, get. unfold mbind at 1, M_bind at 1, mret at 1, M_ret at 1.
  cbn [for_in get_next].
  unfold mbind at 1, M_bind at 1. unfold mbind at 1, M_bind at 1.
  unfold ffi_new_SDL_Event.
  by unfold mbind at 1, M_bind at 1.
Qed.

(** C6: a dispatch cycle empties the queue and calls [dispatch] once per
    queued record, on the translation of that record, oldest record first;
    no record is skipped and none is dispatched out of turn. *)
Theorem event_get_dispatches_in_queue_order (lib : tcod_lib)
    (self : Dispatcher) (w : World) (bound : nat) :
  (length (sdl_queue w) < bound)%nat ->
  let buffer := fresh (dom (heap w)) in
  exists events w',
    event_get lib bound self w = (Ok tt, w')
    /\ Forall2
         (fun record event =>
            translate lib {| ptr := buffer; deref := record |} = Ok event)
         (sdl_queue w) events
    /\ sdl_queue w' = []
    /\ calls w' = (calls w ++ flat_map cycle_calls events)%list
    /\ (filter (fun call => call.1 = "dispatch")
          (flat_map cycle_calls events)).*2 = events
    /\ heap w'
       = <[buffer := default SDL_Event_zero (last (sdl_queue w))]> (heap w).
Proof.
  intros Hbound buffer.
  destruct (for_in_suspended lib self buffer (sdl_queue w) bound
              (<[buffer := SDL_Event_zero]> (heap w)) (calls w) Hbound)
    as (events & Hall & Hrun).
  destruct bound as [|bound]; [lia|].
  rewrite event_get_allocates. fold buffer.
  exists events. eexists. split; [exact Hrun|]. split; [exact Hall|].
  cbn [sdl_queue calls heap]. split; [done|]. split; [done|].
  split; [apply dispatch_entries_of_cycle|].
  apply last_record_in_buffer.
Qed.

Lemma event_get_dispatches_in_queue_order_witness :
  (length (sdl_queue three_record_world) < 4)%nat
  /\ exists events w',
       event_get SDL2_8px 4 EventDispatch three_record_world = (Ok tt, w')
       /\ Forall2
            (fun record event =>
               translate SDL2_8px {| ptr := 1%positive; deref := record |}
               = Ok event)
            (sdl_queue three_record_world) events
       /\ sdl_queue w' = []
       /\ calls w' = flat_map cycle_calls events.
Proof.
  assert (Hbound : (length (sdl_queue three_record_world) < 4)%nat)
    by (vm_compute; lia).
  split; [exact Hbound|].
  destruct (event_get_dispatches_in_queue_order
              SDL2_8px EventDispatch three_record_world 4 Hbound)
    as (events & w' & Hrun & Hall & Hq & Hcalls & _).
  exists events, w'. auto.
Defined.

Example event_get_three_records :
  let run := event_get SDL2_8px 4 EventDispatch three_record_world in
  fst run = Ok tt
  /\ sdl_queue (snd run) = []
  /\ (calls (snd run)).*1
     = ["dispatch"; "ev_keydown"; "dispatch"; "dispatch"; "ev_windowresized"]
  /\ (fun call => ob_dict call.2 !! "type") <$> calls (snd run)
     = [ Some (VStr "KEYDOWN"); Some (VStr "KEYDOWN"); Some (VStr "");
         Some (VStr "WindowResized"); Some (VStr "WindowResized") ].
Proof. vm_compute. repeat split. Qed.

Example event_get_bound_too_small :
  fst (event_get SDL2_8px 3 EventDispatch three_record_world) = Unfinished.
Proof. vm_compute. reflexivity. Qed.

(** ** Draining without dispatching *)

Lemma list_of_suspended (lib : tcod_lib) (buffer : loc) (queue : list SDL_Event) :
  forall (bound : nat) (h : gmap loc SDL_Event) (c : list (string * PyObj)),
    (length queue < bound)%nat ->
    exists events,
      Forall2
        (fun record event =>
           translate lib {| ptr := buffer; deref := record |} = Ok event)
        queue events
      /\ list_of lib bound (GetSuspended buffer)
           {| sdl_queue := queue; heap := h; calls := c |}
         = (Ok events,
            {| sdl_queue := [];
               heap := fold_left (fun h record => <[buffer := record]> h) queue h;
               calls := c |}).
Proof.
  induction queue as [|record rest IH]; intros bound h c Hbound;
    (destruct bound as [|bound]; [simpl in Hbound; lia|]).
  - exists []. split; [constructor|].
    cbn [list_of get_next]. unfold mbind at 1, M_bind at 1.
    by rewrite get_resume_nil.
  - destruct (translate_never_raises lib {| ptr := buffer; deref := record |})
      as (event & Htr).
    destruct (IH bound (<[buffer := record]> h) c) as (events & Hall & Hrun).
    { simpl in Hbound. lia. }
    exists (event :: events). split; [by constructor|].
    cbn [list_of get_next]. unfold mbind at 1, M_bind at 1.
    rewrite (get_resume_cons lib buffer _ record rest) by done.
    cbn zeta. rewrite Htr. cbn [fst snd].
    unfold mbind at 1, M_bind at 1. unfold polled. cbn [sdl_queue heap calls].
    by rewrite Hrun.
Qed.

(** [list(get())] returns the translations of all queued records, oldest
    first, and leaves the queue empty. *)
Theorem get_drains_queue (lib : tcod_lib) (w : World) (bound : nat) :
  (length (sdl_queue w) < bound)%nat ->
  let buffer := fresh (dom (heap w)) in
  exists events w',
    list_of lib bound GetCreated w = (Ok events, w')
    /\ Forall2
         (fun record event =>
            translate lib {| ptr := buffer; deref := record |} = Ok event)
         (sdl_queue w) events
    /\ sdl_queue w' = []
    /\ calls w' = calls w.
Proof.
  intros Hbound buffer.
  destruct (list_of_suspended lib buffer (sdl_queue w) bound
              (<[buffer := SDL_Event_zero]> (heap w)) (calls w) Hbound)
    as (events & Hall & Hrun).
  destruct bound as [|bound]; [lia|].
  exists events. eexists. split; [|split; [exact Hall|]].
  - cbn [list_of get_next] in Hrun |- *.
    unfold mbind at 1, M_bind at 1. unfold mbind at 1, M_bind at 1.
    unfold ffi_new_SDL_Event. fold buffer.
    unfold mbind at 1, M_bind at 1 in Hrun. exact Hrun.
  - by cbn [sdl_queue calls].
Qed.

Lemma get_drains_queue_witness :
  (length (sdl_queue three_record_world) < 4)%nat
  /\ exists events w',
       list_of SDL2_8px 4 GetCreated three_record_world = (Ok events, w')
       /\ Forall2
            (fun record event =>
               translate SDL2_8px {| ptr := 1%positive; deref := record |}
               = Ok event)
            (sdl_queue three_record_world) events
       /\ sdl_queue w' = []
       /\ calls w' = [].
Proof.
  assert (Hbound : (length (sdl_queue three_record_world) < 4)%nat)
    by (vm_compute; lia).
  split; [exact Hbound|].
  exact (get_drains_queue SDL2_8px three_record_world 4 Hbound).
Defined.

(** ** One buffer for every event of a drain *)

Lemma translate_keeps_pointer (lib : tcod_lib) (sdl_event : cdata) (event : PyObj) :
  translate lib sdl_event = Ok event ->
  ob_dict event !! "sdl_event" = Some (VPtr (ptr sdl_event)).
Proof.
  unfold translate.
  destruct (_SDL_TO_CLASS_TABLE lib !! sdl_type (deref sdl_event))
    as [cls|] eqn:Hcls; [|by intros [= <-]].
  apply dict_literal_lookup_Some in Hcls.
  unfold SDL_TO_CLASS_TABLE_items in Hcls.
  repeat
    (apply elem_of_cons in Hcls as [Hcls|Hcls];
     [injection Hcls as _ ->|]);
    [..|by apply elem_of_nil in Hcls].
  1-8: by intros [= <-].
  cbn [from_sdl_event]. unfold WindowEvent_from_sdl_event.
  by destruct (__WINDOW_TYPES lib !! _); intros [= <-].
Qed.

(** The events of one dispatch cycle all refer to the buffer [get] allocated,
    and when the cycle ends that buffer holds the record polled last: an
    event kept beyond its turn no longer sees its own record there. *)
Theorem drained_events_share_buffer (lib : tcod_lib) (self : Dispatcher)
    (w : World) (bound : nat) :
  (length (sdl_queue w) < bound)%nat ->
  let buffer := fresh (dom (heap w)) in
  exists w',
    event_get lib bound self w = (Ok tt, w')
    /\ Forall
         (fun call => ob_dict call.2 !! "sdl_event" = Some (VPtr buffer))
         (drop (length (calls w)) (calls w'))
    /\ heap w' !! buffer
       = Some (default SDL_Event_zero (last (sdl_queue w))).
Proof.
  intros Hbound buffer.
  destruct (for_in_suspended lib self buffer (sdl_queue w) bound
              (<[buffer := SDL_Event_zero]> (heap w)) (calls w) Hbound)
    as (events & Hall & Hrun).
  destruct bound as [|bound]; [lia|].
  rewrite event_get_allocates. fold buffer.
  eexists. split; [exact Hrun|]. cbn [calls heap]. split.
  - rewrite drop_app_length.
    clear Hrun Hbound. induction Hall as [|record event queue events Htr _ IH];
      [constructor|].
    cbn [flat_map]. apply Forall_app. split; [|exact IH].
    apply translate_keeps_pointer in Htr. cbn [ptr] in Htr.
    unfold cycle_calls, handler_calls.
    destruct (ob_dict event !! "type") as [[| | |tag| |]|];
      try (by repeat constructor).
    destruct (PyStr.truthy tag); by repeat constructor.
  - rewrite last_record_in_buffer. apply lookup_insert_eq.
Qed.

Lemma drained_events_share_buffer_witness :
  (length (sdl_queue three_record_world) < 4)%nat
  /\ exists w',
       event_get SDL2_8px 4 EventDispatch three_record_world = (Ok tt, w')
       /\ Forall
            (fun call => ob_dict call.2 !! "sdl_event" = Some (VPtr 1%positive))
            (calls w')
       /\ heap w' !! 1%positive = Some (window_record 5 640 480).
Proof.
  assert (Hbound : (length (sdl_queue three_record_world) < 4)%nat)
    by (vm_compute; lia).
  split; [exact Hbound|].
  exact (drained_events_share_buffer
           SDL2_8px EventDispatch three_record_world 4 Hbound).
Defined.

(** * Further properties *)

(** ** More on the bitmask describer *)

Lemma matching_names_ext (bits bits' : Z) (table : list (Z * string)) :
  (forall entry, entry ∈ table ->
     Z.land (fst entry) bits = 0 <-> Z.land (fst entry) bits' = 0) ->
  matching_names bits table = matching_names bits' table.
Proof.
  unfold matching_names. induction table as [|entry table IH]; intros Hsame; [done|].
  assert (Hrest : forall e, e ∈ table ->
            Z.land (fst e) bits = 0 <-> Z.land (fst e) bits' = 0)
    by (intros e He; apply Hsame; by apply list_elem_of_further).
  specialize (Hsame entry (list_elem_of_here _ _)).
  rewrite !filter_cons.
  destruct (decide (Z.land (fst entry) bits <> 0)) as [Hin|Hout];
    destruct (decide (Z.land (fst entry) bits' <> 0)) as [Hin'|Hout'];
    try tauto; cbn [fmap list_fmap]; by rewrite (IH Hrest).
Qed.

Lemma key_within_table_bits (table : list (Z * string)) (entry : Z * string) :
  entry ∈ table -> Z.land (fst entry) (table_bits table) = fst entry.
Proof.
  induction table as [|first table IH]; intros Hin.
  - by apply elem_of_nil in Hin.
  - cbn [table_bits fold_right]. fold (table_bits table).
    apply elem_of_cons in Hin as [->|Hin].
    + apply Z.bits_inj'. intros n _.
      rewrite Z.land_spec, Z.lor_spec. by destruct (Z.testbit (fst first) n).
    + specialize (IH Hin). apply Z.bits_inj'. intros n _.
      assert (Hbit : Z.testbit (fst entry) n
                     = Z.testbit (fst entry) n && Z.testbit (table_bits table) n)
        by (by rewrite <- Z.land_spec, IH).
      rewrite Z.land_spec, Z.lor_spec.
      destruct (Z.testbit (fst entry) n), (Z.testbit (fst first) n),
        (Z.testbit (table_bits table) n); simpl in *; congruence.
Qed.

Lemma matching_names_masked (bits : Z) (table : list (Z * string)) :
  matching_names (Z.land bits (table_bits table)) table
  = matching_names bits table.
Proof.
  apply matching_names_ext. intros entry Hin.
  rewrite (Z.land_comm bits), Z.land_assoc.
  by rewrite (key_within_table_bits table entry Hin).
Qed.

(** The describer looks only at the bits some key of the table has: any
    other bit of the mask is dropped without a trace. *)
Theorem describe_bitmask_ignores_unlisted_bits (bits : Z)
    (table : list (Z * string)) (default : Value) :
  _describe_bitmask (Z.land bits (table_bits table)) table default
  = _describe_bitmask bits table default
  /\ (Z.land bits (table_bits table) = 0 ->
      _describe_bitmask bits table default = default).
Proof.
  pose proof (matching_names_masked bits table) as Hnames.
  split.
  - by rewrite !describe_bitmask_unfold, Hnames.
  - intros Hnone. rewrite describe_bitmask_unfold, <- Hnames, Hnone.
    by rewrite matching_names_zero.
Qed.

Lemma describe_bitmask_ignores_unlisted_bits_example :
  _describe_bitmask 0x24 _REVERSE_BUTTON_MASK_TABLE (VStr "0")
  = _describe_bitmask 0x04 _REVERSE_BUTTON_MASK_TABLE (VStr "0")
  /\ _describe_bitmask 0x20 _REVERSE_BUTTON_MASK_TABLE (VStr "0") = VStr "0".
Proof. split; reflexivity. Qed.

(** A label is reported for the union of two masks exactly when it is
    reported for one of them, and the union gives the default exactly when
    both masks do so for want of a matching entry. *)
Theorem describe_bitmask_union (a b : Z) (table : list (Z * string))
    (default : Value) :
  _describe_bitmask (Z.lor a b) table default
  = match (filter
             (fun entry => Z.land (fst entry) a <> 0 \/ Z.land (fst entry) b <> 0)
             table).*2
    with
    | [] => default
    | names => VStr (PyStr.join "|" names)
    end
  /\ (forall name,
        name ∈ matching_names (Z.lor a b) table
        <-> name ∈ matching_names a table \/ name ∈ matching_names b table)
  /\ (matching_names (Z.lor a b) table = []
      <-> matching_names a table = [] /\ matching_names b table = []).
Proof.
  assert (Hbit : forall k, Z.land k (Z.lor a b) <> 0
                           <-> Z.land k a <> 0 \/ Z.land k b <> 0).
  { intros k. rewrite Z.land_lor_distr_r, Z.lor_eq_0_iff.
    destruct (decide (Z.land k a = 0)), (decide (Z.land k b = 0)); tauto. }
  assert (Hnames : matching_names (Z.lor a b) table
      = (filter (fun entry => Z.land (fst entry) a <> 0 \/ Z.land (fst entry) b <> 0)
           table).*2).
  { unfold matching_names. f_equal. apply list_filter_iff. intros entry. apply Hbit. }
  assert (Hmem : forall name,
             name ∈ matching_names (Z.lor a b) table
             <-> name ∈ matching_names a table \/ name ∈ matching_names b table).
  { intros name. rewrite Hnames. unfold matching_names.
    rewrite !list_elem_of_fmap. split.
    - intros (entry & -> & Hin). apply list_elem_of_filter in Hin as [[Ha|Hb] Hin].
      + left. exists entry. split; [done|]. by apply list_elem_of_filter.
      + right. exists entry. split; [done|]. by apply list_elem_of_filter.
    - intros [(entry & -> & Hin)|(entry & -> & Hin)];
        apply list_elem_of_filter in Hin as [Hsel Hin];
        exists entry; (split; [done|]); apply list_elem_of_filter; tauto. }
  assert (Hempty : forall l : list string, l = [] <-> forall name, name ∉ l).
  { intros l. split; [intros -> name; apply not_elem_of_nil|].
    destruct l as [|name l]; [done|]. intros Hnone.
    destruct (Hnone name). apply list_elem_of_here. }
  split; [by rewrite describe_bitmask_unfold, Hnames|]. split; [exact Hmem|].
  rewrite !Hempty. split.
  - intros Hnone. split; intros name Hin; apply (Hnone name), Hmem; tauto.
  - intros [Ha Hb] name Hin. apply Hmem in Hin as [Hin|Hin];
      [by apply (Ha name) | by apply (Hb name)].
Qed.

Lemma fmap_NoDup_inj {A B : Type} (f : A -> B) (l : list A) (x y : A) :
  NoDup (f <$> l) -> x ∈ l -> y ∈ l -> f x = f y -> x = y.
Proof.
  induction l as [|z l IH]; intros Hnd Hx Hy Hxy.
  - by apply elem_of_nil in Hx.
  - cbn [fmap list_fmap] in Hnd. apply NoDup_cons in Hnd as [Hz Hnd].
    apply elem_of_cons in Hx as [->|Hx]; apply elem_of_cons in Hy as [->|Hy].
    + done.
    + destruct Hz. rewrite Hxy. apply list_elem_of_fmap. by exists y.
    + destruct Hz. rewrite <- Hxy. apply list_elem_of_fmap. by exists x.
    + by apply IH.
Qed.

(** The printed button state tells which of the five buttons are held: two
    masks printed alike agree on the five button bits. *)
Theorem button_state_round_trip (a b : Z) :
  _describe_bitmask a _REVERSE_BUTTON_MASK_TABLE (VStr "0")
  = _describe_bitmask b _REVERSE_BUTTON_MASK_TABLE (VStr "0") ->
  Z.land a 0x1F = Z.land b 0x1F.
Proof.
  set (show := fun bits => _describe_bitmask bits _REVERSE_BUTTON_MASK_TABLE (VStr "0")).
  assert (Hmask : forall bits, show bits = show (Z.land bits 0x1F)).
  { intros bits. unfold show. rewrite !describe_bitmask_unfold.
    by rewrite <- (matching_names_masked bits _REVERSE_BUTTON_MASK_TABLE). }
  assert (Hrange : forall bits,
             Z.land bits 0x1F ∈ Z.of_nat <$> seq 0 32).
  { intros bits. change 0x1F with (Z.ones 5). rewrite Z.land_ones by lia.
    pose proof (Z.mod_pos_bound bits (2 ^ 5) ltac:(lia)) as Hb.
    apply list_elem_of_fmap. exists (Z.to_nat (bits mod 2 ^ 5)).
    split; [lia|]. apply elem_of_seq. lia. }
  intros Hsame. fold (show a) in Hsame. fold (show b) in Hsame.
  rewrite (Hmask a), (Hmask b) in Hsame.
  apply (fmap_NoDup_inj show (Z.of_nat <$> seq 0 32)); try apply Hrange; [|done].
  apply (bool_decide_unpack _). by vm_compute.
Qed.

Lemma button_state_round_trip_witness :
  _describe_bitmask 0x24 _REVERSE_BUTTON_MASK_TABLE (VStr "0")
  = _describe_bitmask 0x04 _REVERSE_BUTTON_MASK_TABLE (VStr "0")
  /\ Z.land 0x24 0x1F = Z.land 0x04 0x1F.
Proof.
  assert (Hsame : _describe_bitmask 0x24 _REVERSE_BUTTON_MASK_TABLE (VStr "0")
                  = _describe_bitmask 0x04 _REVERSE_BUTTON_MASK_TABLE (VStr "0"))
    by reflexivity.
  split; [exact Hsame|]. exact (button_state_round_trip 0x24 0x04 Hsame).
Defined.

(** ** More on mouse events *)

Lemma py_int_floor_ceiling (x : Q) :
  py_int x = if (0 <=? Qnum x)%Z then Qfloor x else Qceiling x.
Proof.
  destruct x as [n d]. unfold py_int, Qceiling, Qfloor, Qopp. cbn [Qnum Qden].
  destruct (Z.leb_spec 0 n) as [Hn|Hn].
  - apply Z.quot_div_nonneg; lia.
  - rewrite <- (Z.opp_involutive n) at 1. rewrite Z.quot_opp_l by lia.
    f_equal. apply Z.quot_div_nonneg; lia.
Qed.

(** [int] never reverses the order of two floats. *)
Lemma py_int_monotone (x y : Q) : (x <= y)%Q -> py_int x <= py_int y.
Proof.
  intros Hxy. rewrite !py_int_floor_ceiling.
  destruct (Z.leb_spec 0 (Qnum x)) as [Hx|Hx];
    destruct (Z.leb_spec 0 (Qnum y)) as [Hy|Hy].
  - by apply Qfloor_resp_le.
  - exfalso. unfold Qle in Hxy. nia.
  - transitivity 0.
    + rewrite <- (Qceiling_Z 0). apply Qceiling_resp_le. unfold Qle. simpl. lia.
    + rewrite <- (Qfloor_Z 0). apply Qfloor_resp_le. unfold Qle. simpl. lia.
  - by apply Qceiling_resp_le.
Qed.

(** A button event carries the record's pixel position and button number,
    and its tile is the one a motion event at the same pixel reports. *)
Theorem mouse_button_event_fields (lib : tcod_lib) (sdl_event : cdata) :
  let b := button (deref sdl_event) in
  Forall
    (fun cls =>
       exists event,
         from_sdl_event lib cls sdl_event = Ok event
         /\ ob_type event = cls
         /\ ob_dict event !! "type" = Some (VStr (PyStr.upper (__name__ cls)))
         /\ ob_dict event !! "pixel" = Some (VPoint (button_x b) (button_y b))
         /\ ob_dict event !! "button" = Some (VInt (button_button b))
         /\ forall moved : cdata,
              motion_x (motion (deref moved)) = button_x b ->
              motion_y (motion (deref moved)) = button_y b ->
              ob_dict (MouseMotion_from_sdl_event lib MouseMotion moved) !! "tile"
              = ob_dict event !! "tile")
    [MouseButtonDown; MouseButtonUp].
Proof.
  intros b.
  repeat (apply Forall_cons; split); try (by apply Forall_nil).
  all: eexists; split; [reflexivity|]; repeat (split; [reflexivity|]).
  all: intros moved Hx Hy.
  all: unfold MouseMotion_from_sdl_event, MouseButtonEvent_from_sdl_event.
  all: cbn zeta; cbn [fst snd]; rewrite Hx, Hy; reflexivity.
Qed.

(** Tile motions add up: when a motion event starts where an earlier one
    ended, its tile is the earlier tile plus its own tile motion. *)
Theorem mouse_motion_chain (lib : tcod_lib) (cls : Class) (earlier later : cdata) :
  let m1 := motion (deref earlier) in
  let m2 := motion (deref later) in
  motion_x m2 - xrel m2 = motion_x m1 ->
  motion_y m2 - yrel m2 = motion_y m1 ->
  exists x1 y1 x2 y2 dx dy,
    ob_dict (MouseMotion_from_sdl_event lib cls earlier) !! "tile"
      = Some (VPoint x1 y1)
    /\ ob_dict (MouseMotion_from_sdl_event lib cls later) !! "tile"
      = Some (VPoint x2 y2)
    /\ ob_dict (MouseMotion_from_sdl_event lib cls later) !! "tile_motion"
      = Some (VPoint dx dy)
    /\ x2 = x1 + dx /\ y2 = y1 + dy.
Proof.
  intros m1 m2 Hx Hy.
  do 6 eexists. split; [reflexivity|]. split; [reflexivity|].
  split; [reflexivity|].
  unfold _pixel_to_tile. cbn [fst snd]. fold m1 m2. rewrite Hx, Hy. lia.
Qed.

Lemma mouse_motion_chain_witness :
  let earlier := {| ptr := 1%positive; deref := motion_record 7 3 2 2 |} in
  let later := {| ptr := 1%positive; deref := motion_record 10 20 3 17 |} in
  10 - 3 = 7 /\ 20 - 17 = 3
  /\ ob_dict (MouseMotion_from_sdl_event SDL2_8px MouseMotion earlier) !! "tile"
     = Some (VPoint 0 0)
  /\ ob_dict (MouseMotion_from_sdl_event SDL2_8px MouseMotion later) !! "tile"
     = Some (VPoint 1 2)
  /\ ob_dict (MouseMotion_from_sdl_event SDL2_8px MouseMotion later) !! "tile_motion"
     = Some (VPoint 1 2).
Proof.
  intros earlier later.
  assert (Hx : 10 - 3 = 7) by lia. assert (Hy : 20 - 17 = 3) by lia.
  split; [exact Hx|]. split; [exact Hy|].
  destruct (mouse_motion_chain SDL2_8px MouseMotion earlier later Hx Hy)
    as (x1 & y1 & x2 & y2 & dx & dy & H1 & H2 & H3 & _).
  repeat split; reflexivity.
Defined.

(** With a coordinate service that never reverses the order of two pixel
    columns or rows, the tile motion never points against the pixel motion,
    and is zero when the pixel does not move. *)
Theorem tile_motion_follows_pixel_motion (lib : tcod_lib) (cls : Class)
    (sdl_event : cdata) :
  (forall x x' y y' : Z, x <= x' ->
     (fst (TCOD_sys_pixel_to_tile lib (inject_Z x, inject_Z y))
      <= fst (TCOD_sys_pixel_to_tile lib (inject_Z x', inject_Z y')))%Q) ->
  (forall x x' y y' : Z, y <= y' ->
     (snd (TCOD_sys_pixel_to_tile lib (inject_Z x, inject_Z y))
      <= snd (TCOD_sys_pixel_to_tile lib (inject_Z x', inject_Z y')))%Q) ->
  let m := motion (deref sdl_event) in
  exists dx dy,
    ob_dict (MouseMotion_from_sdl_event lib cls sdl_event) !! "tile_motion"
      = Some (VPoint dx dy)
    /\ (0 <= xrel m -> 0 <= dx) /\ (xrel m <= 0 -> dx <= 0)
    /\ (0 <= yrel m -> 0 <= dy) /\ (yrel m <= 0 -> dy <= 0).
Proof.
  intros Hcol Hrow m. do 2 eexists. split; [reflexivity|].
  unfold _pixel_to_tile. cbn [fst snd]. fold m.
  repeat split; intros Hrel.
  - pose proof (py_int_monotone _ _
      (Hcol (motion_x m - xrel m) (motion_x m)
            (motion_y m - yrel m) (motion_y m) ltac:(lia))). lia.
  - pose proof (py_int_monotone _ _
      (Hcol (motion_x m) (motion_x m - xrel m)
            (motion_y m) (motion_y m - yrel m) ltac:(lia))). lia.
  - pose proof (py_int_monotone _ _
      (Hrow (motion_x m - xrel m) (motion_x m)
            (motion_y m - yrel m) (motion_y m) ltac:(lia))). lia.
  - pose proof (py_int_monotone _ _
      (Hrow (motion_x m) (motion_x m - xrel m)
            (motion_y m) (motion_y m - yrel m) ltac:(lia))). lia.
Qed.

Lemma tile_motion_follows_pixel_motion_witness :
  let sdl_event := {| ptr := 1%positive; deref := motion_record 10 20 3 17 |} in
  exists dx dy,
    ob_dict (MouseMotion_from_sdl_event SDL2_8px MouseMotion sdl_event)
      !! "tile_motion" = Some (VPoint dx dy)
    /\ (0 <= 3 -> 0 <= dx) /\ (3 <= 0 -> dx <= 0)
    /\ (0 <= 17 -> 0 <= dy) /\ (17 <= 0 -> dy <= 0).
Proof.
  intros sdl_event.
  apply (tile_motion_follows_pixel_motion SDL2_8px MouseMotion sdl_event).
  - intros x x' y y' Hle. unfold Qle. simpl. lia.
  - intros x x' y y' Hle. unfold Qle. simpl. lia.
Defined.

(** ** Text input *)

Lemma ffi_string_prefix (buf : list Byte.byte) (maxlen : nat) :
  ffi_string buf maxlen `prefix_of` buf.
Proof.
  revert buf. induction maxlen as [|n IH]; intros [|b rest]; cbn [ffi_string];
    try apply prefix_nil.
  destruct b; try apply prefix_nil; by apply prefix_cons.
Qed.

Lemma ffi_string_length (buf : list Byte.byte) (maxlen : nat) :
  (length (ffi_string buf maxlen) <= maxlen)%nat.
Proof.
  revert buf. induction maxlen as [|n IH]; intros [|b rest]; cbn [ffi_string];
    cbn [length]; try lia.
  specialize (IH rest). destruct b; cbn [length]; lia.
Qed.

Lemma ffi_string_no_nul (buf : list Byte.byte) (maxlen : nat) :
  Byte.x00 ∉ ffi_string buf maxlen.
Proof.
  revert buf. induction maxlen as [|n IH]; intros [|b rest]; cbn [ffi_string];
    try apply not_elem_of_nil.
  specialize (IH rest).
  destruct b; try apply not_elem_of_nil;
    (apply not_elem_of_cons; split; [discriminate|exact IH]).
Qed.

Lemma ffi_string_stops_at_nul (buf : list Byte.byte) (maxlen : nat) :
  (length (ffi_string buf maxlen) < maxlen)%nat ->
  (length (ffi_string buf maxlen) < length buf)%nat ->
  buf !! length (ffi_string buf maxlen) = Some Byte.x00.
Proof.
  revert buf. induction maxlen as [|n IH]; intros [|b rest]; cbn [ffi_string];
    cbn [length]; try lia.
  specialize (IH rest).
  destruct b; cbn [length]; intros Hmax Hbuf; try reflexivity;
    (cbn [lookup list_lookup]; apply IH; lia).
Qed.

(** The text of a text-input event is the record's buffer up to its first
    NUL byte or its 32nd byte, whichever comes first: it is a prefix of the
    buffer, holds no NUL, and stops short of 32 bytes only at a NUL or at the
    end of the buffer. *)
Theorem text_input_text (lib : tcod_lib) (sdl_event : cdata) :
  let buf := text_text (text (deref sdl_event)) in
  exists event bytes,
    from_sdl_event lib TextInput sdl_event = Ok event
    /\ ob_dict event !! "text" = Some (VStr (string_of_list_byte bytes))
    /\ list_byte_of_string (string_of_list_byte bytes) = bytes
    /\ (bytes `prefix_of` buf)
    /\ (length bytes <= 32)%nat
    /\ (Byte.x00 ∉ bytes)
    /\ ((length bytes < 32)%nat -> (length bytes < length buf)%nat ->
        buf !! length bytes = Some Byte.x00)
    /\ ((length buf <= 32)%nat -> Byte.x00 ∉ buf -> bytes = buf).
Proof.
  intros buf. eexists. exists (ffi_string buf 32).
  split; [reflexivity|]. split; [reflexivity|].
  split; [apply list_byte_of_string_of_list_byte|].
  split; [apply ffi_string_prefix|]. split; [apply ffi_string_length|].
  split; [apply ffi_string_no_nul|]. split; [apply ffi_string_stops_at_nul|].
  intros Hshort Hnul.
  destruct (ffi_string_prefix buf 32) as [rest Hrest].
  destruct rest as [|b rest]; [by rewrite app_nil_r in Hrest|].
  assert (Hlen : (length (ffi_string buf 32) < length buf)%nat).
  { rewrite Hrest at 2. rewrite length_app. cbn [length]. lia. }
  pose proof (ffi_string_stops_at_nul buf 32 ltac:(lia) Hlen) as Hat.
  destruct Hnul. by eapply list_elem_of_lookup_2.
Qed.

(** ** More on the dispatcher *)

Lemma isascii_upper (s : string) :
  PyStr.isascii s = true -> PyStr.isascii (PyStr.upper s) = true.
Proof.
  unfold PyStr.isascii. induction s as [|c s IH]; [done|].
  cbn [list_ascii_of_string PyStr.upper forallb].
  intros [Hc Hs]%andb_true_iff. rewrite (IH Hs), andb_true_r. clear IH Hs.
  revert Hc. by destruct c as [[] [] [] [] [] [] [] []].
Qed.

Lemma isascii_lower (s : string) :
  PyStr.isascii s = true -> PyStr.isascii (PyStr.lower s) = true.
Proof.
  unfold PyStr.isascii. induction s as [|c s IH]; [done|].
  cbn [list_ascii_of_string PyStr.lower forallb].
  intros [Hc Hs]%andb_true_iff. rewrite (IH Hs), andb_true_r. clear IH Hs.
  revert Hc. by destruct c as [[] [] [] [] [] [] [] []].
Qed.

(** What [dispatch] does with an event it has no handler for, or whose
    [type] is not a usable string: a missing [type] raises [AttributeError];
    a false [type] of any kind is passed over in silence; a non-empty ASCII
    string without a matching method raises [AttributeError] naming that
    method; a true [bool], a non-zero [int], a [Point] and a cdata pointer
    raise [AttributeError] for [lower]; in none of these cases is a method of
    the dispatcher entered. *)
Theorem dispatch_without_handler (self : Dispatcher) (event : PyObj) (w : World) :
  (ob_dict event !! "type" = None ->
     dispatch self event w = (Raise (AttributeError "type"), w))
  /\ (forall v, ob_dict event !! "type" = Some v -> truthy v = false ->
        dispatch self event w = (Ok tt, w))
  /\ (forall tag, ob_dict event !! "type" = Some (VStr tag) ->
        PyStr.isascii tag = true -> tag <> "" ->
        hasattr self ("ev_" ++ PyStr.lower tag) = false ->
        dispatch self event w
        = (Raise (AttributeError ("ev_" ++ PyStr.lower tag)), w))
  /\ (forall v, ob_dict event !! "type" = Some v -> truthy v = true ->
        (exists b, v = VBool b) \/ (exists n, v = VInt n)
        \/ (exists x y, v = VPoint x y) \/ (exists p, v = VPtr p) ->
        dispatch self event w = (Raise (AttributeError "lower"), w))
  /\ (forall tag, PyStr.isascii tag = true -> tag <> "" ->
        "ev_" ++ PyStr.lower tag ∉ EventDispatch_methods ->
        hasattr EventDispatch ("ev_" ++ PyStr.lower tag) = false).
Proof.
  split; [|split; [|split; [|split]]].
  - intros Htype. unfold dispatch, getattr. by rewrite Htype.
  - intros v Htype Hfalse. unfold dispatch, getattr. rewrite Htype.
    unfold mbind, M_bind, mret, M_ret. by rewrite Hfalse.
  - intros tag Htype _ Hne Hno. rewrite (dispatch_str _ _ _ _ Htype).
    fold (handler_name tag) in Hno |- *. rewrite Hno.
    destruct tag; [done|reflexivity].
  - intros v Htype Htrue Hkind. unfold dispatch, getattr. rewrite Htype.
    unfold mbind, M_bind, mret, M_ret. rewrite Htrue.
    by destruct Hkind as [[b ->]|[[n ->]|[(x & y & ->)|[p ->]]]].
  - intros tag _ _ Hout. unfold hasattr. cbn [added_methods EventDispatch].
    apply orb_false_iff. split; apply bool_decide_eq_false; [exact Hout|].
    apply not_elem_of_nil.
Qed.

Example dispatch_custom_event :
  let event := setattr (object_new Event) "type" (VStr "FOO") in
  fst (dispatch EventDispatch event three_record_world)
  = Raise (AttributeError "ev_foo").
Proof. reflexivity. Qed.

Lemma lower_upper_ascii (c : ascii) :
  PyStr.lower_ascii (PyStr.upper_ascii c) = PyStr.lower_ascii c.
Proof. destruct c as [[] [] [] [] [] [] [] []]; reflexivity. Qed.

Lemma lower_lower_ascii (c : ascii) :
  PyStr.lower_ascii (PyStr.lower_ascii c) = PyStr.lower_ascii c.
Proof. destruct c as [[] [] [] [] [] [] [] []]; reflexivity. Qed.

Lemma lower_upper (name : string) :
  PyStr.lower (PyStr.upper name) = PyStr.lower name.
Proof.
  induction name as [|c name IH]; [done|].
  cbn [PyStr.upper PyStr.lower]. by rewrite lower_upper_ascii, IH.
Qed.

Lemma lower_lower (name : string) :
  PyStr.lower (PyStr.lower name) = PyStr.lower name.
Proof.
  induction name as [|c name IH]; [done|].
  cbn [PyStr.lower]. by rewrite lower_lower_ascii, IH.
Qed.

(** The handler of an event with an ASCII tag is found without regard to
    letter case: the tag [Event.__init__] derives from an ASCII class name,
    itself ASCII, leads to "ev_" followed by the lower-cased class name, and
    a tag leads where its lower-cased form does. *)
Theorem handler_name_ignores_case (name : string) :
  PyStr.isascii name = true ->
  PyStr.isascii (PyStr.upper name) = true
  /\ handler_name (PyStr.upper name) = "ev_" ++ PyStr.lower name
  /\ handler_name (PyStr.lower name) = handler_name name
  /\ forall (self : Dispatcher) (event : PyObj) (w : World),
       ob_dict event !! "type" = Some (VStr (PyStr.upper name)) ->
       hasattr self ("ev_" ++ PyStr.lower name) = true ->
       name <> "" ->
       dispatch self event w
       = (Ok tt, logged w [("ev_" ++ PyStr.lower name, event)]).
Proof.
  intros Hascii.
  pose proof (lower_upper name) as Hupper.
  pose proof (lower_lower name) as Hlower.
  split; [by apply isascii_upper|]. split; [|split].
  - unfold handler_name. by rewrite Hupper.
  - unfold handler_name. by rewrite Hlower.
  - intros self event w Htype Hhas Hne.
    rewrite (dispatch_str _ _ _ _ Htype). unfold handler_name.
    rewrite Hupper, Hhas. destruct name as [|c name]; [done|reflexivity].
Qed.

Lemma handler_name_ignores_case_witness :
  PyStr.isascii "KeyDown" = true
  /\ handler_name "KEYDOWN" = "ev_keydown"
  /\ handler_name "keydown" = handler_name "KeyDown".
Proof.
  assert (Hascii : PyStr.isascii "KeyDown" = true) by reflexivity.
  split; [exact Hascii|].
  destruct (handler_name_ignores_case "KeyDown" Hascii)
    as (_ & Hupper & Hlower & _).
  split; [exact Hupper|exact Hlower].
Defined.

(** ** Every handler has its records *)

Lemma translate_listed (lib : tcod_lib) (sdl_event : cdata) (cls : Class) :
  NoDup (SDL_TO_CLASS_TABLE_items lib).*1 ->
  (sdl_type (deref sdl_event), cls) ∈ SDL_TO_CLASS_TABLE_items lib ->
  translate lib sdl_event = from_sdl_event lib cls sdl_event.
Proof.
  intros Hnd Hin. unfold translate, _SDL_TO_CLASS_TABLE.
  by rewrite (dict_literal_lookup_NoDup _ _ _ Hnd Hin).
Qed.

Lemma reach_by_class (lib : tcod_lib) (code : Z) (cls : Class) :
  NoDup (SDL_TO_CLASS_TABLE_items lib).*1 ->
  (code, cls) ∈ SDL_TO_CLASS_TABLE_items lib ->
  cls <> WindowEvent ->
  forall (buffer : loc) (self : Dispatcher) (w : World),
  exists event,
    translate lib {| ptr := buffer; deref := record_of_kind code 0 |} = Ok event
    /\ dispatch self event w
       = (Ok tt, logged w [(handler_name (PyStr.upper (__name__ cls)), event)]).
Proof.
  intros Hnd Hin Hcls buffer self w.
  rewrite (translate_listed lib
             {| ptr := buffer; deref := record_of_kind code 0 |} cls Hnd Hin).
  unfold SDL_TO_CLASS_TABLE_items in Hin.
  repeat
    (apply elem_of_cons in Hin as [Hin|Hin];
     [injection Hin as _ ->|]);
    [..|by apply elem_of_nil in Hin]; try done.
  all: eexists; split; [reflexivity|].
  all: erewrite dispatch_kind_tag;
    [reflexivity | reflexivity | right; apply (bool_decide_unpack _); by vm_compute].
Qed.

Lemma reach_by_window_code (lib : tcod_lib) (sub : Z) (label : string) :
  NoDup (SDL_TO_CLASS_TABLE_items lib).*1 ->
  NoDup (WINDOW_TYPES_items lib).*1 ->
  (sub, label) ∈ WINDOW_TYPES_items lib ->
  forall (buffer : loc) (self : Dispatcher) (w : World),
  exists event,
    translate lib
      {| ptr := buffer; deref := record_of_kind (SDL_WINDOWEVENT lib) sub |}
    = Ok event
    /\ dispatch self event w = (Ok tt, logged w [(handler_name label, event)]).
Proof.
  intros Hnd Hwin Hin buffer self w.
  rewrite (translate_listed lib _ WindowEvent Hnd)
    by (cbn [deref sdl_type record_of_kind]; unfold SDL_TO_CLASS_TABLE_items;
        repeat first [apply list_elem_of_here | apply list_elem_of_further]).
  cbn [from_sdl_event]. unfold WindowEvent_from_sdl_event, __WINDOW_TYPES.
  cbn [deref window window_event record_of_kind].
  rewrite (dict_literal_lookup_NoDup _ _ _ Hwin Hin).
  unfold WINDOW_TYPES_items in Hin.
  repeat
    (apply elem_of_cons in Hin as [Hin|Hin];
     [injection Hin as _ ->|]);
    [..|by apply elem_of_nil in Hin].
  all: eexists; split; [reflexivity|].
  all: erewrite dispatch_kind_tag;
    [reflexivity | reflexivity | right; apply (bool_decide_unpack _); by vm_compute].
Qed.

(** No handler of [EventDispatch] is out of reach: for each of its
    twenty-four [ev_] methods there is a native record whose translation
    [dispatch] hands to that method and to no other. *)
Theorem every_handler_is_reached (lib : tcod_lib) (name : string) :
  NoDup (SDL_TO_CLASS_TABLE_items lib).*1 ->
  NoDup (WINDOW_TYPES_items lib).*1 ->
  name ∈ drop 3 EventDispatch_methods ->
  exists record,
    forall (buffer : loc) (self : Dispatcher) (w : World),
    exists event,
      translate lib {| ptr := buffer; deref := record |} = Ok event
      /\ dispatch self event w = (Ok tt, logged w [(name, event)]).
Proof.
  intros Hnd Hwin Hname.
  assert (Hlist :
    drop 3 EventDispatch_methods
    = (((fun entry => handler_name (PyStr.upper (__name__ entry.2)))
          <$> filter (fun entry => entry.2 <> WindowEvent)
                (SDL_TO_CLASS_TABLE_items lib))
       ++ ((fun entry => handler_name entry.2) <$> WINDOW_TYPES_items lib))%list)
    by reflexivity.
  rewrite Hlist in Hname. apply elem_of_app in Hname as [Hname|Hname];
    apply list_elem_of_fmap in Hname as ([code tag] & -> & Hin).
  - apply list_elem_of_filter in Hin as [Hcls Hin].
    exists (record_of_kind code 0). by apply reach_by_class.
  - exists (record_of_kind (SDL_WINDOWEVENT lib) code).
    by apply reach_by_window_code.
Qed.

Lemma every_handler_is_reached_witness :
  NoDup (SDL_TO_CLASS_TABLE_items SDL2_8px).*1
  /\ NoDup (WINDOW_TYPES_items SDL2_8px).*1
  /\ "ev_windowclose" ∈ drop 3 EventDispatch_methods
  /\ exists record,
       forall (buffer : loc) (self : Dispatcher) (w : World),
       exists event,
         translate SDL2_8px {| ptr := buffer; deref := record |} = Ok event
         /\ dispatch self event w
            = (Ok tt, logged w [("ev_windowclose", event)]).
Proof.
  assert (Hnd : NoDup (SDL_TO_CLASS_TABLE_items SDL2_8px).*1)
    by (apply (bool_decide_unpack _); vm_compute; exact I).
  assert (Hwin : NoDup (WINDOW_TYPES_items SDL2_8px).*1)
    by (apply (bool_decide_unpack _); vm_compute; exact I).
  assert (Hname : "ev_windowclose" ∈ drop 3 EventDispatch_methods)
    by (apply (bool_decide_unpack _); vm_compute; exact I).
  split; [exact Hnd|]. split; [exact Hwin|]. split; [exact Hname|].
  exact (every_handler_is_reached SDL2_8px "ev_windowclose" Hnd Hwin Hname).
Defined.

(** ** The kind tag tells the class *)

Lemma translate_class_and_fields (lib : tcod_lib) (sdl_event : cdata)
    (event : PyObj) (tag : string) :
  translate lib sdl_event = Ok event ->
  ob_dict event !! "type" = Some (VStr tag) ->
  ob_type event = class_of_tag tag
  /\ dom (ob_dict event) = field_names (ob_type event).
Proof.
  unfold translate.
  destruct (_SDL_TO_CLASS_TABLE lib !! sdl_type (deref sdl_event))
    as [cls|] eqn:Hcls.
  - apply dict_literal_lookup_Some in Hcls.
    unfold SDL_TO_CLASS_TABLE_items in Hcls.
    repeat
      (apply elem_of_cons in Hcls as [Hcls|Hcls];
       [injection Hcls as _ ->|]);
      [..|by apply elem_of_nil in Hcls].
    1-8: intros [= <-] Htype; vm_compute in Htype; injection Htype as <-;
         split; [reflexivity | dom_fields].
    cbn [from_sdl_event]. unfold WindowEvent_from_sdl_event.
    destruct (__WINDOW_TYPES lib !! window_event (window (deref sdl_event)))
      as [label|] eqn:Hsub.
    + intros [= <-] Htype.
      assert (tag = label) as ->.
      { cbn in Htype. by injection Htype as <-. }
      split; [|dom_fields].
      apply dict_literal_lookup_Some in Hsub.
      unfold WINDOW_TYPES_items in Hsub.
      repeat
        (apply elem_of_cons in Hsub as [Hsub|Hsub];
         [injection Hsub as _ ->; reflexivity|]).
      by apply elem_of_nil in Hsub.
    + intros [= <-] Htype. vm_compute in Htype. injection Htype as <-.
      split; [reflexivity | dom_fields].
  - intros [= <-] Htype. vm_compute in Htype. injection Htype as <-.
    split; [reflexivity | dom_fields].
Qed.

(** Two events the source yields with the same [type] are instances of the
    same class and have the same attributes: the tag alone tells what an
    event is and what can be read from it. *)
Theorem kind_tag_tells_class (lib : tcod_lib) (first second : cdata)
    (event1 event2 : PyObj) (tag : string) :
  translate lib first = Ok event1 ->
  translate lib second = Ok event2 ->
  ob_dict event1 !! "type" = Some (VStr tag) ->
  ob_dict event2 !! "type" = Some (VStr tag) ->
  ob_type event1 = ob_type event2
  /\ dom (ob_dict event1) = dom (ob_dict event2)
  /\ ob_type event1 = class_of_tag tag.
Proof.
  intros Htr1 Htr2 Htype1 Htype2.
  destruct (translate_class_and_fields lib first event1 tag Htr1 Htype1)
    as [Hcls1 Hdom1].
  destruct (translate_class_and_fields lib second event2 tag Htr2 Htype2)
    as [Hcls2 Hdom2].
  split; [congruence|]. split; [|exact Hcls1].
  rewrite Hdom1, Hdom2. congruence.
Qed.

Lemma kind_tag_tells_class_witness :
  let first := {| ptr := 1%positive; deref := window_record 5 640 480 |} in
  let second := {| ptr := 2%positive; deref := window_record 5 800 600 |} in
  let event1 := WindowEvent_from_sdl_event SDL2_8px WindowEvent first in
  let event2 := WindowEvent_from_sdl_event SDL2_8px WindowEvent second in
  ob_type event1 = ob_type event2
  /\ dom (ob_dict event1) = dom (ob_dict event2)
  /\ ob_type event1 = class_of_tag "WindowResized".
Proof.
  intros first second event1 event2.
  apply (kind_tag_tells_class SDL2_8px first second event1 event2 "WindowResized");
    reflexivity.
Defined.

(** ** One resumption of the generator *)

(** A resumption of [get] never raises and enters no method; it either
    yields one event and removes exactly the oldest record from the queue, or
    ends the iteration with the queue as it found it.  A running generator
    ends exactly when the queue is empty; a finished one stays finished,
    whatever has been queued since. *)
Theorem get_next_step (lib : tcod_lib) (g : get_frame) (w : World) :
  exists item g' w',
    get_next lib g w = (Ok (item, g'), w')
    /\ calls w' = calls w
    /\ match item with
       | None => sdl_queue w' = sdl_queue w /\ g' = GetFinished
       | Some event =>
           exists record buffer,
             sdl_queue w = record :: sdl_queue w'
             /\ translate lib {| ptr := buffer; deref := record |} = Ok event
             /\ g' = GetSuspended buffer
             /\ heap w' !! buffer = Some record
       end
    /\ (g <> GetFinished -> (item = None <-> sdl_queue w = []))
    /\ (g = GetFinished -> item = None /\ w' = w).
Proof.
  assert (Hres : forall buffer w0,
    exists item g' w',
      get_resume lib buffer w0 = (Ok (item, g'), w')
      /\ calls w' = calls w0
      /\ match item with
         | None => sdl_queue w' = sdl_queue w0 /\ g' = GetFinished
         | Some event =>
             exists record buffer',
               sdl_queue w0 = record :: sdl_queue w'
               /\ translate lib {| ptr := buffer'; deref := record |} = Ok event
               /\ g' = GetSuspended buffer'
               /\ heap w' !! buffer' = Some record
         end
      /\ (item = None <-> sdl_queue w0 = [])).
  { intros buffer w0. destruct (sdl_queue w0) as [|record rest] eqn:Hq.
    - exists None, GetFinished, w0. rewrite (get_resume_nil _ _ _ Hq).
      by rewrite Hq.
    - destruct (translate_never_raises lib {| ptr := buffer; deref := record |})
        as (event & Htr).
      exists (Some event), (GetSuspended buffer), (polled buffer record rest w0).
      rewrite (get_resume_cons _ _ _ _ _ Hq). cbn zeta. rewrite Htr.
      split; [done|]. split; [done|]. split; [|done].
      exists record, buffer. cbn [polled sdl_queue heap].
      split; [done|]. split; [done|]. split; [done|]. apply lookup_insert_eq. }
  destruct g as [|buffer|]; cbn [get_next].
  - unfold mbind, M_bind, ffi_new_SDL_Event.
    match goal with
    | |- context [get_resume lib ?b ?w1] =>
        destruct (Hres b w1) as (item & g' & w' & Hrun & Hcalls & Hitem & Hend)
    end.
    exists item, g', w'. cbn [sdl_queue calls] in *.
    split; [exact Hrun|]. split; [exact Hcalls|]. split; [exact Hitem|].
    split; [by intros _|discriminate].
  - destruct (Hres buffer w) as (item & g' & w' & Hrun & Hcalls & Hitem & Hend).
    exists item, g', w'. split; [exact Hrun|]. split; [exact Hcalls|].
    split; [exact Hitem|]. split; [by intros _|discriminate].
  - exists None, GetFinished, w. by repeat split.
Qed.

Example finished_generator_ignores_queue :
  get_next SDL2_8px GetFinished three_record_world
  = (Ok (None, GetFinished), three_record_world).
Proof. reflexivity. Qed.

(** ** What a dispatch cycle leaves in place *)

(** A dispatch cycle allocates one record, at an address not in use before,
    and leaves every record allocated earlier as it was. *)
Theorem event_get_frame (lib : tcod_lib) (self : Dispatcher) (w : World)
    (bound : nat) :
  (length (sdl_queue w) < bound)%nat ->
  let buffer := fresh (dom (heap w)) in
  exists w',
    event_get lib bound self w = (Ok tt, w')
    /\ (buffer ∉ dom (heap w))
    /\ dom (heap w') = {[ buffer ]} ∪ dom (heap w)
    /\ forall p, p ∈ dom (heap w) -> heap w' !! p = heap w !! p.
Proof.
  intros Hbound buffer.
  destruct (for_in_suspended lib self buffer (sdl_queue w) bound
              (<[buffer := SDL_Event_zero]> (heap w)) (calls w) Hbound)
    as (events & Hall & Hrun).
  destruct bound as [|bound]; [lia|].
  rewrite event_get_allocates. fold buffer.
  eexists. split; [exact Hrun|]. cbn [heap].
  rewrite last_record_in_buffer.
  assert (Hfresh : buffer ∉ dom (heap w)) by apply is_fresh.
  split; [exact Hfresh|]. split; [apply dom_insert_L|].
  intros p Hp. apply lookup_insert_ne. intros <-. by apply Hfresh.
Qed.

Lemma event_get_frame_witness :
  (length (sdl_queue three_record_world) < 4)%nat
  /\ exists w',
       event_get SDL2_8px 4 EventDispatch three_record_world = (Ok tt, w')
       /\ (1%positive ∉ dom (heap three_record_world))
       /\ dom (heap w') = {[ 1%positive ]} ∪ dom (heap three_record_world)
       /\ forall p, p ∈ dom (heap three_record_world) ->
                    heap w' !! p = heap three_record_world !! p.
Proof.
  assert (Hbound : (length (sdl_queue three_record_world) < 4)%nat)
    by (vm_compute; lia).
  split; [exact Hbound|].
  exact (event_get_frame SDL2_8px EventDispatch three_record_world 4 Hbound).
Defined.

(** ** Printing events *)

Lemma button_table_lookup (b : Z) :
  _REVERSE_BUTTON_TABLE !! b =
    if decide (b = 1) then Some "tcod.event.BUTTON_LEFT"
    else if decide (b = 2) then Some "tcod.event.BUTTON_MIDDLE"
    else if decide (b = 3) then Some "tcod.event.BUTTON_RIGHT"
    else if decide (b = 4) then Some "tcod.event.BUTTON_X1"
    else if decide (b = 5) then Some "tcod.event.BUTTON_X2"
    else None.
Proof.
  repeat (case_decide; [subst b; reflexivity|]).
  apply dict_literal_lookup_None. cbn [fmap list_fmap fst].
  unfold BUTTON_LEFT, BUTTON_MIDDLE, BUTTON_RIGHT, BUTTON_X1, BUTTON_X2.
  rewrite !not_elem_of_cons. repeat split; try done. apply not_elem_of_nil.
Qed.

(** Printing a mouse-button event looks the button up in a table of five:
    an event whose button is 1 to 5 prints its position, tile and the
    button's name, any other button makes [repr] raise [KeyError], and so
    does an instance made with the constructor's default button 0. *)
Theorem mouse_button_repr (lib : tcod_lib) (sdl_event : cdata) :
  let b := button_button (button (deref sdl_event)) in
  Forall
    (fun cls =>
       let event := MouseButtonEvent_from_sdl_event lib cls sdl_event in
       (forall label, _REVERSE_BUTTON_TABLE !! b = Some label ->
          exists pixel tile,
            ob_dict event !! "pixel" = Some pixel
            /\ ob_dict event !! "tile" = Some tile
            /\ MouseButtonEvent__repr__ event
               = with_repr pixel (fun pixel =>
                 with_repr tile (fun tile =>
                 Text ("tcod.event." ++ __name__ cls ++ "(pixel=" ++ pixel
                       ++ ", tile=" ++ tile ++ ", button=" ++ label ++ ")")))
            /\ exists text, MouseButtonEvent__repr__ event = Text text)
       /\ (1 <= b <= 5 -> exists text, MouseButtonEvent__repr__ event = Text text)
       /\ (~ 1 <= b <= 5 -> MouseButtonEvent__repr__ event = Raises (KeyError b))
       /\ MouseButtonEvent__repr__
            (MouseButtonEvent__init__ (object_new cls) (0, 0) (0, 0) 0)
          = Raises (KeyError 0))
    [MouseButtonDown; MouseButtonUp].
Proof.
  intros b.
  assert (Hshape : forall cls,
    MouseButtonEvent__repr__ (MouseButtonEvent_from_sdl_event lib cls sdl_event)
    = match _REVERSE_BUTTON_TABLE !! b with
      | None => Raises (KeyError b)
      | Some label =>
          with_repr
            (VPoint (button_x (button (deref sdl_event)))
                    (button_y (button (deref sdl_event))))
            (fun pixel =>
          with_repr
            (VPoint
               (py_int (fst (_pixel_to_tile lib
                               (button_x (button (deref sdl_event)))
                               (button_y (button (deref sdl_event))))))
               (py_int (snd (_pixel_to_tile lib
                               (button_x (button (deref sdl_event)))
                               (button_y (button (deref sdl_event)))))))
            (fun tile =>
          Text ("tcod.event." ++ __name__ cls ++ "(pixel=" ++ pixel
                ++ ", tile=" ++ tile ++ ", button=" ++ label ++ ")")))
      end) by (intros []; reflexivity).
  repeat (apply Forall_cons; split); try (by apply Forall_nil).
  all: cbn zeta; rewrite Hshape; split; [|split; [|split; [|reflexivity]]].
  all: try (intros label Hlabel; rewrite Hlabel; do 2 eexists;
            split; [reflexivity|]; split; [reflexivity|];
            split; [reflexivity|]; by eexists).
  all: rewrite button_table_lookup.
  all: try (intros Hb; repeat (case_decide; [by eexists|]); lia).
  all: intros Hb; repeat (case_decide; [lia|]); reflexivity.
Qed.

(** A mouse-wheel event carries the record's scroll amounts unchanged and is
    flipped exactly when the record's direction is not zero; its [repr]
    shows the two amounts and mentions the flip only when there is one. *)
Theorem mouse_wheel_event (lib : tcod_lib) (sdl_event : cdata) :
  let wh := wheel (deref sdl_event) in
  exists event,
    from_sdl_event lib MouseWheel sdl_event = Ok event
    /\ ob_type event = MouseWheel
    /\ ob_dict event !! "x" = Some (VInt (wheel_x wh))
    /\ ob_dict event !! "y" = Some (VInt (wheel_y wh))
    /\ ob_dict event !! "flipped" = Some (VBool (py_bool (direction wh)))
    /\ (py_bool (direction wh) = true <-> direction wh <> 0)
    /\ MouseWheel__repr__ event
       = Text ("tcod.event.MouseWheel(x=" ++ decimal (wheel_x wh)
               ++ ", y=" ++ decimal (wheel_y wh)
               ++ (if decide (direction wh = 0) then "" else ", flipped=True")
               ++ ")").
Proof.
  intros wh. eexists. split; [reflexivity|]. repeat (split; [reflexivity|]).
  assert (Hflag : py_bool (direction wh) = true <-> direction wh <> 0).
  { unfold py_bool. destruct (Z.eqb_spec (direction wh) 0); simpl;
      split; congruence. }
  split; [exact Hflag|].
  change (MouseWheel__repr__ (MouseWheel_from_sdl_event MouseWheel sdl_event))
    with (Text ("tcod.event.MouseWheel(x=" ++ decimal (wheel_x wh)
               ++ ", y=" ++ decimal (wheel_y wh)
               ++ (if py_bool (direction wh) then ", flipped=True" else "")
               ++ ")")).
  case_decide as Hdir.
  - destruct (py_bool (direction wh)); [|done]. by destruct (proj1 Hflag).
  - by rewrite (proj2 Hflag Hdir).
Qed.

(** Printing a mouse-motion event built from a record never fails; the
    state is shown through the bitmask describer, as "0" exactly when none
    of the five button bits is set. *)
Theorem mouse_motion_repr (lib : tcod_lib) (cls : Class) (sdl_event : cdata) :
  let m := motion (deref sdl_event) in
  let event := MouseMotion_from_sdl_event lib cls sdl_event in
  exists pixel pixel_motion tile tile_motion state text,
    ob_dict event !! "pixel" = Some pixel
    /\ ob_dict event !! "pixel_motion" = Some pixel_motion
    /\ ob_dict event !! "tile" = Some tile
    /\ ob_dict event !! "tile_motion" = Some tile_motion
    /\ _describe_bitmask (motion_state m) _REVERSE_BUTTON_MASK_TABLE (VStr "0")
       = VStr state
    /\ (Z.land (motion_state m) 0x1F = 0 <-> state = "0")
    /\ MouseMotion__repr__ event
       = with_repr pixel (fun pixel =>
         with_repr pixel_motion (fun pixel_motion =>
         with_repr tile (fun tile =>
         with_repr tile_motion (fun tile_motion =>
         Text ("tcod.event." ++ __name__ cls
               ++ "(pixel=" ++ pixel ++ ", pixel_motion=" ++ pixel_motion
               ++ ", tile=" ++ tile ++ ", tile_motion=" ++ tile_motion
               ++ ", state=" ++ state ++ ")")))))
    /\ MouseMotion__repr__ event = Text text.
Proof.
  intros m event.
  set (shown := _describe_bitmask (motion_state m)
                  _REVERSE_BUTTON_MASK_TABLE (VStr "0")).
  assert (Hshape :
    MouseMotion__repr__ event
    = match shown with
      | VStr state =>
          with_repr (VPoint (motion_x m) (motion_y m)) (fun pixel =>
          with_repr (VPoint (xrel m) (yrel m)) (fun pixel_motion =>
          with_repr
            (VPoint (py_int (fst (_pixel_to_tile lib (motion_x m) (motion_y m))))
                    (py_int (snd (_pixel_to_tile lib (motion_x m) (motion_y m)))))
            (fun tile =>
          with_repr
            (VPoint
               (py_int (fst (_pixel_to_tile lib (motion_x m) (motion_y m)))
                - py_int (fst (_pixel_to_tile lib (motion_x m - xrel m)
                                               (motion_y m - yrel m))))
               (py_int (snd (_pixel_to_tile lib (motion_x m) (motion_y m)))
                - py_int (snd (_pixel_to_tile lib (motion_x m - xrel m)
                                               (motion_y m - yrel m)))))
            (fun tile_motion =>
          Text ("tcod.event." ++ __name__ cls
                ++ "(pixel=" ++ pixel ++ ", pixel_motion=" ++ pixel_motion
                ++ ", tile=" ++ tile ++ ", tile_motion=" ++ tile_motion
                ++ ", state=" ++ state ++ ")")))))
      | _ => Unmodelled
      end) by (destruct cls; reflexivity).
  assert (Hstr : exists state, shown = VStr state
                   /\ (Z.land (motion_state m) 0x1F = 0 <-> state = "0")).
  { pose proof (matching_names_masked (motion_state m) _REVERSE_BUTTON_MASK_TABLE)
      as Hmask.
    change (table_bits _REVERSE_BUTTON_MASK_TABLE) with 0x1F in Hmask.
    assert (Hrange : Z.land (motion_state m) 0x1F ∈ Z.of_nat <$> seq 0 32).
    { change 0x1F with (Z.ones 5). rewrite Z.land_ones by lia.
      pose proof (Z.mod_pos_bound (motion_state m) (2 ^ 5) ltac:(lia)) as Hb.
      apply list_elem_of_fmap. exists (Z.to_nat (motion_state m mod 2 ^ 5)).
      split; [lia|]. apply elem_of_seq. lia. }
    subst shown. rewrite describe_bitmask_unfold, <- Hmask.
    revert Hrange. generalize (Z.land (motion_state m) 0x1F). intros bits Hrange.
    cbn [seq fmap list_fmap] in Hrange.
    repeat (apply elem_of_cons in Hrange as [->|Hrange];
            [eexists; split; [reflexivity|]; split; [try reflexivity|]; by intros|]).
    by apply elem_of_nil in Hrange. }
  destruct Hstr as (state & Hshown & Hzero).
  do 4 eexists. exists state. eexists.
  do 4 (split; [reflexivity|]). split; [exact Hshown|]. split; [exact Hzero|].
  rewrite Hshape, Hshown. split; reflexivity.
Qed.

(** A window event prints its sub-kind between quotes, and its two data
    values only when one of them is not zero: an event whose data are both
    zero prints like one that carries none. *)
Theorem window_event_repr (lib : tcod_lib) (sdl_event : cdata) (label : string) :
  let w := window (deref sdl_event) in
  __WINDOW_TYPES lib !! window_event w = Some label ->
  WindowEvent__repr__ (WindowEvent_from_sdl_event lib WindowEvent sdl_event)
  = Text ("tcod.event.WindowEvent(type='" ++ label ++ "'"
          ++ (if decide (data1 w = 0 /\ data2 w = 0) then ""
              else ", x=" ++ decimal (data1 w) ++ ", y=" ++ decimal (data2 w))
          ++ ")").
Proof.
  intros w Hsub. unfold WindowEvent_from_sdl_event. fold w. rewrite Hsub.
  set (shown params :=
         with_repr (VStr label) (fun type =>
         Text ("tcod.event.WindowEvent(type=" ++ type ++ params ++ ")"))).
  assert (Hshape :
    WindowEvent__repr__
      (setattr (WindowEvent__init__ (object_new WindowEvent) label (data1 w) (data2 w))
         "sdl_event" (VPtr (ptr sdl_event)))
    = if negb (Z.eqb (data1 w) 0) || negb (Z.eqb (data2 w) 0)
      then shown (", x=" ++ decimal (data1 w) ++ ", y=" ++ decimal (data2 w))
      else shown "").
  { unfold WindowEvent__repr__, with_attr, shown.
    change (ob_dict _ !! "x") with (Some (VInt (data1 w))).
    change (ob_dict _ !! "y") with (Some (VInt (data2 w))).
    change (ob_dict _ !! "type") with (Some (VStr label)).
    cbn [truthy].
    by destruct (negb (Z.eqb (data1 w) 0)), (negb (Z.eqb (data2 w) 0)). }
  cbn zeta. rewrite Hshape. unfold shown.
  apply dict_literal_lookup_Some in Hsub. unfold WINDOW_TYPES_items in Hsub.
  repeat
    (apply elem_of_cons in Hsub as [Hsub|Hsub];
     [injection Hsub as _ ->|]);
    [..|by apply elem_of_nil in Hsub].
  all: destruct (Z.eqb_spec (data1 w) 0) as [H1|H1];
       destruct (Z.eqb_spec (data2 w) 0) as [H2|H2]; cbn [negb orb];
       case_decide as Hboth; try tauto; reflexivity.
Qed.

Lemma window_event_repr_witness :
  WindowEvent__repr__
    (WindowEvent_from_sdl_event SDL2_8px WindowEvent
       {| ptr := 1%positive; deref := window_record 4 0 0 |})
  = Text "tcod.event.WindowEvent(type='WindowMoved')"
  /\ WindowEvent__repr__
       (WindowEvent_from_sdl_event SDL2_8px WindowEvent
          {| ptr := 1%positive; deref := window_record 5 640 0 |})
     = Text "tcod.event.WindowEvent(type='WindowResized', x=640, y=0)".
Proof.
  split.
  - exact (window_event_repr SDL2_8px
             {| ptr := 1%positive; deref := window_record 4 0 0 |}
             "WindowMoved" eq_refl).
  - exact (window_event_repr SDL2_8px
             {| ptr := 1%positive; deref := window_record 5 640 0 |}
             "WindowResized" eq_refl).
Defined.

(** ** Printing an undefined event *)

Lemma get_next_buffer (lib : tcod_lib) (g g' : get_frame) (w w' : World)
    (event : PyObj) :
  get_next lib g w = (Ok (Some event, g'), w') ->
  exists buffer record,
    head (sdl_queue w) = Some record
    /\ translate lib {| ptr := buffer; deref := record |} = Ok event
    /\ heap w' !! buffer = Some record.
Proof.
  assert (Hres : forall buffer w0,
             get_resume lib buffer w0 = (Ok (Some event, g'), w') ->
             exists record,
               head (sdl_queue w0) = Some record
               /\ translate lib {| ptr := buffer; deref := record |} = Ok event
               /\ heap w' !! buffer = Some record).
  { intros buffer w0. destruct (sdl_queue w0) as [|record rest] eqn:Hq.
    - rewrite (get_resume_nil _ _ _ Hq). discriminate.
    - rewrite (get_resume_cons _ _ _ _ _ Hq). cbn zeta.
      destruct (translate lib _) as [event'| |] eqn:Htr; try discriminate.
      intros [= -> _ <-]. exists record. split; [done|]. split; [done|].
      apply lookup_insert_eq. }
  destruct g as [|buffer|]; cbn [get_next].
  - unfold mbind, M_bind, ffi_new_SDL_Event. intros Hnext.
    apply Hres in Hnext as (record & Hhead & Htr & Hheap). eauto.
  - intros Hnext. apply Hres in Hnext as (record & Hhead & Htr & Hheap). eauto.
  - discriminate.
Qed.

Lemma undefined_str_pointer (event : PyObj) (h : gmap loc SDL_Event)
    (buffer : loc) (record : SDL_Event) :
  ob_dict event !! "sdl_event" = Some (VPtr buffer) ->
  h !! buffer = Some record ->
  Undefined__str__ event h
  = Text ("<Undefined sdl_event.type=" ++ decimal (sdl_type record) ++ ">").
Proof.
  intros Hattr Hrecord. unfold Undefined__str__, with_attr. rewrite Hattr.
  cbn [truthy]. by rewrite (lookup_total_correct _ _ _ Hrecord).
Qed.

(** Printed while it is the event just yielded, an [Undefined] event shows
    the kind code of the record it was made from. *)
Theorem undefined_str_at_yield (lib : tcod_lib) (g g' : get_frame)
    (w w' : World) (event : PyObj) :
  get_next lib g w = (Ok (Some event, g'), w') ->
  ob_type event = Undefined ->
  exists record,
    head (sdl_queue w) = Some record
    /\ Undefined__str__ event (heap w')
       = Text ("<Undefined sdl_event.type=" ++ decimal (sdl_type record) ++ ">").
Proof.
  intros Hnext _.
  apply get_next_buffer in Hnext as (buffer & record & Hhead & Htr & Hheap).
  exists record. split; [exact Hhead|].
  apply translate_keeps_pointer in Htr. cbn [ptr] in Htr.
  by apply (undefined_str_pointer event (heap w') buffer record).
Qed.

Lemma undefined_str_at_yield_witness :
  Undefined__str__
    (Undefined_from_sdl_event Undefined
       {| ptr := 1%positive; deref := unlisted_record |})
    (<[1%positive := unlisted_record]> (<[1%positive := SDL_Event_zero]> ∅))
  = Text "<Undefined sdl_event.type=39321>".
Proof.
  destruct (undefined_str_at_yield SDL2_8px GetCreated (GetSuspended 1%positive)
              stale_world
              (polled 1%positive unlisted_record [held_key]
                 {| sdl_queue := sdl_queue stale_world;
                    heap := <[1%positive := SDL_Event_zero]> ∅;
                    calls := [] |})
              (Undefined_from_sdl_event Undefined
                 {| ptr := 1%positive; deref := unlisted_record |}))
    as (record & Hhead & Hstr).
  - vm_compute. reflexivity.
  - reflexivity.
  - injection Hhead as <-. exact Hstr.
Defined.




(** ** Waiting, then draining *)

Lemma wait_for_event_timed (next : arrival) (ms : Z) (w : World) :
  0 <= ms ->
  exists blocked code w',
    wait_for_event next (Some ms) w = Returns blocked code w'
    /\ 0 <= blocked <= ms
    /\ (sdl_queue w `prefix_of` sdl_queue w').
Proof.
  intros Hms. unfold wait_for_event.
  destruct (sdl_queue w) as [|record queue] eqn:Hqueue.
  - destruct next as [[delay record]|].
    + destruct (Z.leb_spec (Z.pos delay) ms).
      * do 3 eexists. split; [reflexivity|]. split; [lia|].
        cbn [arrived sdl_queue]. rewrite Hqueue. by apply prefix_nil.
      * do 3 eexists. split; [reflexivity|]. split; [lia|].
        rewrite Hqueue. by apply prefix_nil.
    + do 3 eexists. split; [reflexivity|]. split; [lia|].
      rewrite Hqueue. by apply prefix_nil.
  - do 3 eexists. split; [reflexivity|]. split; [lia|]. by rewrite Hqueue.
Qed.

Lemma wait_for_event_untimed (next : arrival) (w : World) :
  sdl_queue w <> [] \/ next <> None ->
  exists blocked code w',
    wait_for_event next None w = Returns blocked code w'
    /\ 0 <= blocked
    /\ sdl_queue w' <> []
    /\ (sdl_queue w `prefix_of` sdl_queue w').
Proof.
  intros Havailable. unfold wait_for_event.
  destruct (sdl_queue w) as [|record queue] eqn:Hqueue.
  - destruct next as [[delay record]|]; [|by destruct Havailable].
    do 3 eexists. split; [reflexivity|]. split; [lia|].
    cbn [arrived sdl_queue]. rewrite Hqueue. split; [done|by apply prefix_nil].
  - do 3 eexists. split; [reflexivity|]. split; [lia|]. by rewrite Hqueue.
Qed.

Lemma list_of_created_empty (lib : tcod_lib) (w : World) (bound : nat) :
  sdl_queue w = [] -> (0 < bound)%nat ->
  fst (list_of lib bound GetCreated w) = Ok [].
Proof.
  intros Hqueue Hbound. destruct bound as [|bound]; [lia|].
  cbn [list_of get_next]. unfold mbind at 1, M_bind at 1.
  unfold mbind at 1, M_bind at 1. unfold ffi_new_SDL_Event.
  unfold get_resume, mbind, M_bind, SDL_PollEvent. cbn [sdl_queue].
  by rewrite Hqueue.
Qed.

Lemma float_to_int_nan (t : float) :
  Prim2SF t = S754_nan -> float_to_int (t * 1000) = inl ValueError.
Proof.
  intros Ht. unfold float_to_int. rewrite mul_spec, Ht. reflexivity.
Qed.

Lemma float_to_int_infinity (t : float) (s : bool) :
  Prim2SF t = S754_infinity s -> float_to_int (t * 1000) = inl OverflowError.
Proof.
  intros Ht. unfold float_to_int. rewrite mul_spec, Ht. reflexivity.
Qed.

(** C8 (as the code has it): [wait] with a timeout first computes
    [int(timeout * 1000)]; when that raises (a NaN, an infinity) or gives a
    number no C int holds, [wait] raises before it waits or drains.
    Otherwise it passes that many whole milliseconds to the backend's timed
    wait and, once that returns, returns what [get()] returns on the queue
    the backend has left; with the backend of the spec and a timeout that is
    not negative it is blocked for at most that many milliseconds, and the
    records queued before are still queued.  With no timeout it calls the
    untimed wait: with the backend of the spec it never returns when no
    record is or becomes available, and otherwise returns what [get()]
    returns on a queue that is not empty.  With timeout 0 on an empty queue
    it returns without blocking and the drain is empty. *)
Theorem wait_then_drain (lib : tcod_lib)
    (SDL_WaitEventTimeout : Z -> World -> blocking)
    (SDL_WaitEvent : World -> blocking) (next : arrival) (w : World) :
  (forall t e, float_to_int (t * 1000) = inl e ->
     wait SDL_WaitEventTimeout SDL_WaitEvent (Some t) w = (WaitRaised e, w))
  /\ (forall t ms,
        float_to_int (t * 1000) = inr ms -> fits_c_int ms = false ->
        wait SDL_WaitEventTimeout SDL_WaitEvent (Some t) w
        = (WaitRaised OverflowError, w))
  /\ (forall t, Prim2SF t = S754_nan ->
        wait SDL_WaitEventTimeout SDL_WaitEvent (Some t) w
        = (WaitRaised ValueError, w))
  /\ (forall t s, Prim2SF t = S754_infinity s ->
        wait SDL_WaitEventTimeout SDL_WaitEvent (Some t) w
        = (WaitRaised OverflowError, w))
  /\ (forall t ms blocked code w',
        float_to_int (t * 1000) = inr ms -> fits_c_int ms = true ->
        SDL_WaitEventTimeout ms w = Returns blocked code w' ->
        wait SDL_WaitEventTimeout SDL_WaitEvent (Some t) w
        = (Finished blocked (fst (get w')), snd (get w')))
  /\ (forall blocked code w',
        SDL_WaitEvent w = Returns blocked code w' ->
        wait SDL_WaitEventTimeout SDL_WaitEvent None w
        = (Finished blocked (fst (get w')), snd (get w')))
  /\ (forall t ms,
        float_to_int (t * 1000) = inr ms -> fits_c_int ms = true -> 0 <= ms ->
        exists blocked w',
          wait (timed_wait next) (untimed_wait next) (Some t) w
          = (Finished blocked (fst (get w')), snd (get w'))
          /\ 0 <= blocked <= ms
          /\ (sdl_queue w `prefix_of` sdl_queue w'))
  /\ (sdl_queue w = [] -> next = None ->
        wait (timed_wait next) (untimed_wait next) None w = (Hung, w))
  /\ (sdl_queue w <> [] \/ next <> None ->
        exists blocked w',
          wait (timed_wait next) (untimed_wait next) None w
          = (Finished blocked (fst (get w')), snd (get w'))
          /\ sdl_queue w' <> []
          /\ (sdl_queue w `prefix_of` sdl_queue w'))
  /\ (sdl_queue w = [] ->
        wait (timed_wait next) (untimed_wait next) (Some 0%float) w
        = (Finished 0 (fst (get w)), snd (get w))
        /\ forall bound, (0 < bound)%nat ->
             fst (list_of lib bound GetCreated w) = Ok []).
Proof.
  repeat apply conj.
  - intros t e Hint. unfold wait. by rewrite Hint.
  - intros t ms Hint Hfits. unfold wait. by rewrite Hint, Hfits.
  - intros t Ht. unfold wait. by rewrite (float_to_int_nan t Ht).
  - intros t s Ht. unfold wait. by rewrite (float_to_int_infinity t s Ht).
  - intros t ms blocked code w' Hint Hfits Hback. unfold wait.
    by rewrite Hint, Hfits, Hback.
  - intros blocked code w' Hback. unfold wait. by rewrite Hback.
  - intros t ms Hint Hfits Hms.
    destruct (wait_for_event_timed next ms w Hms)
      as (blocked & code & w' & Hback & Hbound & Hprefix).
    exists blocked, w'. split; [|done].
    unfold wait, timed_wait. by rewrite Hint, Hfits, Hback.
  - intros Hqueue ->. unfold wait, untimed_wait, wait_for_event.
    by rewrite Hqueue.
  - intros Havailable.
    destruct (wait_for_event_untimed next w Havailable)
      as (blocked & code & w' & Hback & _ & Hne & Hprefix).
    exists blocked, w'. split; [|done].
    unfold wait, untimed_wait. by rewrite Hback.
  - intros Hqueue. split.
    + unfold wait, timed_wait, wait_for_event.
      change (float_to_int (0 * 1000)) with (@inr wait_exn Z 0).
      cbn [fits_c_int]. rewrite Hqueue.
      destruct next as [[delay record]|]; reflexivity.
    + intros bound Hbound. by apply list_of_created_empty.
Qed.

(** Half a second allowed, a key press arriving after 200 milliseconds: the
    call is blocked for those 200 and the drain gives the key event. *)
Example wait_half_second :
  let next := Some (200%positive, held_key) in
  let run := wait (timed_wait next) (untimed_wait next) (Some 0.5%float)
               quiet_world in
  fst run = Finished 200 (Ok GetCreated)
  /\ sdl_queue (snd run) = [held_key]
  /\ (fun event => ob_dict event !! "type")
     <$> match fst (list_of SDL2_8px 2 GetCreated (snd run)) with
         | Ok events => events
         | _ => []
         end
     = [Some (VStr "KEYDOWN")].
Proof. vm_compute. repeat split. Qed.

(** An eighth of a second allowed, the same key press: the timeout elapses
    first and the drain is empty. *)
Example wait_eighth_of_a_second :
  let next := Some (200%positive, held_key) in
  let run := wait (timed_wait next) (untimed_wait next) (Some 0.125%float)
               quiet_world in
  fst run = Finished 125 (Ok GetCreated)
  /\ fst (list_of SDL2_8px 1 GetCreated (snd run)) = Ok [].
Proof. vm_compute. repeat split. Qed.

(** C8, counterexample: timeouts of infinity, NaN and 3000000 seconds are not
    null, yet [wait] neither waits nor drains: it raises, although a key
    press is queued that [list(get())] would yield. *)
Lemma wait_raises_on_unusable_timeout :
  wait (timed_wait None) (untimed_wait None) (Some infinity) one_key_world
  = (WaitRaised OverflowError, one_key_world)
  /\ wait (timed_wait None) (untimed_wait None) (Some nan) one_key_world
     = (WaitRaised ValueError, one_key_world)
  /\ wait (timed_wait None) (untimed_wait None) (Some 3000000%float)
       one_key_world
     = (WaitRaised OverflowError, one_key_world)
  /\ (exists event,
        fst (list_of SDL2_8px 2 GetCreated one_key_world) = Ok [event]).
Proof.
  repeat split; try reflexivity. eexists. vm_compute. reflexivity.
Qed.

(** ** Waiting, then dispatching *)

(** [event_wait] raises where [wait] raises and never returns where the
    backend never returns.  Otherwise it is a dispatch cycle on the queue the
    backend has left: the generator [wait] made is never resumed, the queue
    is emptied, and [dispatch] and the handlers are entered as [event_get]
    enters them, oldest record first. *)
Theorem event_wait_dispatches (lib : tcod_lib) (self : Dispatcher)
    (SDL_WaitEventTimeout : Z -> World -> blocking)
    (SDL_WaitEvent : World -> blocking)
    (timeout : option float) (w : World) (bound : nat) :
  match wait SDL_WaitEventTimeout SDL_WaitEvent timeout w with
  | (WaitRaised e, _) =>
      event_wait lib SDL_WaitEventTimeout SDL_WaitEvent bound self timeout w
      = (WaitRaised e, w)
  | (Hung, _) =>
      event_wait lib SDL_WaitEventTimeout SDL_WaitEvent bound self timeout w
      = (Hung, w)
  | (Finished blocked g, w1) =>
      g = Ok GetCreated
      /\ event_wait lib SDL_WaitEventTimeout SDL_WaitEvent bound self timeout w
         = (Finished blocked (fst (event_get lib bound self w1)),
            snd (event_get lib bound self w1))
      /\ ((length (sdl_queue w1) < bound)%nat ->
          exists events w',
            event_wait lib SDL_WaitEventTimeout SDL_WaitEvent bound self
              timeout w
            = (Finished blocked (Ok tt), w')
            /\ Forall2
                 (fun record event =>
                    translate lib
                      {| ptr := fresh (dom (heap w1)); deref := record |}
                    = Ok event)
                 (sdl_queue w1) events
            /\ sdl_queue w' = []
            /\ calls w' = (calls w1 ++ flat_map cycle_calls events)%list)
  end.
Proof.
  unfold event_wait.
  assert (Hshape :
    (exists e, wait SDL_WaitEventTimeout SDL_WaitEvent timeout w
               = (WaitRaised e, w))
    \/ wait SDL_WaitEventTimeout SDL_WaitEvent timeout w = (Hung, w)
    \/ exists blocked w1,
         wait SDL_WaitEventTimeout SDL_WaitEvent timeout w
         = (Finished blocked (Ok GetCreated), w1)).
  { unfold wait. destruct timeout as [t|].
    - destruct (float_to_int (t * 1000)) as [e|ms]; [eauto|].
      destruct (fits_c_int ms); [|eauto].
      destruct (SDL_WaitEventTimeout ms w); eauto.
    - destruct (SDL_WaitEvent w); eauto. }
  destruct Hshape as [[e ->]|[->|(blocked & w1 & ->)]]; [done..|].
  split; [done|]. split; [done|]. intros Hbound.
  destruct (for_in_suspended lib self (fresh (dom (heap w1))) (sdl_queue w1)
              bound (<[fresh (dom (heap w1)) := SDL_Event_zero]> (heap w1))
              (calls w1) Hbound)
    as (events & Hall & Hrun).
  destruct bound as [|bound]; [lia|].
  rewrite event_get_allocates, Hrun. cbn [fst snd].
  exists events. eexists. split; [reflexivity|]. by split.
Qed.

(** A key press arriving 200 milliseconds into [event_wait(0.5)]. *)
Example event_wait_half_second :
  let next := Some (200%positive, held_key) in
  let run := event_wait SDL2_8px (timed_wait next) (untimed_wait next) 2
               EventDispatch (Some 0.5%float) quiet_world in
  fst run = Finished 200 (Ok tt)
  /\ (calls (snd run)).*1 = ["dispatch"; "ev_keydown"].
Proof. vm_compute. repeat split. Qed.
